(** * Shard planning and plan aggregation of the cunumeric test runner

    A shallow embedding of [tests/_utils/stages/_linux/omp.py] (the OpenMP
    stage: [shard_args], [compute_spec]) and of [tests/_utils/test_plan.py]
    ([TestPlan.__init__], [execute], [intro], [outro], [_log_failures]),
    together with the properties the specification states about them.

    Python integers are [Z]; tuples and lists are [list]; exceptions are the
    [Raise] branch of [result]; the global [LOG] is a list of structured
    messages threaded through [TestPlan.execute]. *)

From Stdlib Require Import Ascii.
From stdpp Require Import base numbers list list_numbers list_monad sorting strings pretty.

Local Open Scope Z_scope.

(** ** Exceptions and the error monad *)

Inductive exn : Set :=
  | ZeroDivisionError
  | IndexError
  | KeyError
  | AttributeError
  | ImportError
  | ConfigurationError.

Global Instance exn_eq_dec : EqDecision exn.
Proof. solve_decision. Defined.

Inductive result (A : Type) : Type :=
  | Ok (a : A)
  | Raise (e : exn).
Global Arguments Ok {A} a.
Global Arguments Raise {A} e.

Global Instance result_ret : MRet result := λ A a, Ok a.
Global Instance result_bind : MBind result := λ A B f m,
  match m with
  | Ok a => f a
  | Raise e => Raise e
  end.

Global Instance result_fmap : FMap result := λ A B f m,
  match m with
  | Ok a => Ok (f a)
  | Raise e => Raise e
  end.

Definition raises {A} (m : result A) : Prop := ∃ e, m = Raise e.

(** ** Python built-ins used by the two modules *)

Module Py.

(** [range(lo, hi)] *)
Definition range (lo hi : Z) : list Z := seqZ lo (hi - lo).

(** [l[j]] for an integer [j]: negative indices count from the end, an
    index outside the sequence raises [IndexError]. *)
Definition getitem {A} (l : list A) (j : Z) : result A :=
  let n := Z.of_nat (length l) in
  let j' := if j <? 0 then j + n else j in
  if j' <? 0 then Raise IndexError
  else match l !! Z.to_nat j' with
       | Some x => Ok x
       | None => Raise IndexError
       end.

(** [a // b] on integers: floor division, [ZeroDivisionError] on [b == 0]. *)
Definition floordiv (a b : Z) : result Z :=
  if b =? 0 then Raise ZeroDivisionError else Ok (a `div` b).

(** [sorted(xs)] on integers. *)
Definition sorted (xs : list Z) : list Z := merge_sort Z.le xs.

(** [str(n)] for an integer: decimal digits, a leading minus when negative. *)
Definition str (n : Z) : string := pretty n.

(** [sep.join(xs)] *)
Definition join (sep : string) (xs : list string) : string := String.concat sep xs.

(** [int(b)] for a boolean *)
Definition int (b : bool) : Z := if b then 1 else 0.

(** [sum(f(x) for x in xs)] where [f] yields booleans *)
Definition sum_bool {A} (f : A → bool) (xs : list A) : Z :=
  foldr (λ x acc, int (f x) + acc) 0 xs.

(** [xs[lo:hi]] for [0 <= lo]: the elements at positions [lo, hi). *)
Definition slice {A} (xs : list A) (lo hi : Z) : list A :=
  take (Z.to_nat (hi - lo)) (drop (Z.to_nat lo) xs).

(** [len(xs)] *)
Definition len {A} (xs : list A) : Z := Z.of_nat (length xs).

End Py.

(** ** Data model *)

(** [PinOptionsType]: the literal values of [config.cpu_pin]. *)
Inductive PinOptionsType : Set := pin_none | pin_partial | pin_strict.

Global Instance PinOptionsType_eq_dec : EqDecision PinOptionsType.
Proof. solve_decision. Defined.

Definition FeatureType := string.

Record Config := {
  features : list FeatureType;
  test_files : list string;
  requested_workers : Z;
  cpu_pin : PinOptionsType;
  utility : Z;
  omps : Z;
  ompthreads : Z;
}.

(** One entry of [system.cpus]: the logical core ids of one allocatable unit. *)
Record CPUInfo := { ids : list Z }.

(** Modelled from the spec: the [GPUInfo] entries of [system.gpus]; only
    their number is ever read here. *)
Record GPUInfo := { gpu_id : Z }.

(** [System]: [cpus] is a plain attribute, [gpus] a property that may raise
    (an [ImportError] when no GPU toolkit is installed). *)
Record System := {
  cpus : list CPUInfo;
  gpus : result (list GPUInfo);
}.

Definition Shard := list Z.

Record StageSpec := {
  workers : Z;
  shards : list Shard;
}.

(** ** Worker-count policy *)

(** Modelled from the spec: [adjust_workers] of [stages/util.py], which is
    imported by [omp.py] but defined elsewhere.  Section 4.1: with
    [requested_workers == 0] use [available]; otherwise clamp to
    [min(requested_workers, available)] and raise a fatal configuration
    error when the clamp reduces the request to 0 while [available == 0]. *)
Definition adjust_workers (available requested : Z) : result Z :=
  if requested =? 0 then Ok available
  else
    let clamped := Z.min requested available in
    if (clamped =? 0) && (available =? 0) then Raise ConfigurationError
    else Ok clamped.

(** ** The OpenMP stage ([class OMP]) *)

Module OMP.

Definition kind : FeatureType := "openmp".

Definition shard_args (shard : Shard) (config : Config) : list string :=
  let args := ["--omps"; Py.str (omps config);
               "--ompthreads"; Py.str (ompthreads config)] in
  if decide (cpu_pin config ≠ pin_none)
  then args ++ ["--cpu-bind"; Py.join "," (Py.str <$> shard)]
  else args.

(** [omps * threads + config.utility + int(config.cpu_pin == "strict")] *)
Definition procs (config : Config) : Z :=
  omps config * ompthreads config + utility config
  + Py.int (bool_decide (cpu_pin config = pin_strict)).

(** The body of the [for i in range(workers)] loop: the groups
    [cpus[j]] for [j] in [range(i * procs, (i + 1) * procs)], their ids
    chained and sorted. *)
Definition shard_of (cpus : list CPUInfo) (procs i : Z) : result Shard :=
  let shard_cpus := Py.range (i * procs) ((i + 1) * procs) in
  groups ← mapM (Py.getitem cpus) shard_cpus;
  mret (Py.sorted (concat (ids <$> groups))).

Definition compute_spec (config : Config) (system : System) : result StageSpec :=
  let cpus := cpus system in
  let procs := procs config in
  available ← Py.floordiv (Py.len cpus) procs;
  workers ← adjust_workers available (requested_workers config);
  shards ← mapM (shard_of cpus procs) (Py.range 0 workers);
  mret {| workers := workers; shards := shards |}.

End OMP.

(** ** Processes, stage results and stages *)

(** Modelled from the spec: a [ProcessCompletion], the record the process
    executor returns for one worker (exit code and elapsed time). *)
Record ProcessResult := {
  returncode : Z;
  elapsed : Z;
}.

(** Modelled from the spec: a [StageResult] holds the completions of a
    stage in worker order and its wall-clock time; [total] counts the
    completions and [passed] those with a zero return code. *)
Record StageResult := {
  procs : list ProcessResult;
  time : Z;
}.

Definition total (r : StageResult) : Z := Py.len (procs r).
Definition passed (r : StageResult) : Z :=
  Py.sum_bool (λ proc, returncode proc =? 0) (procs r).

(** A stage object: [result] is unset until the stage has been called. *)
Record Stage := {
  stage_kind : FeatureType;
  name : string;
  result_attr : option StageResult;
}.

(** [stage.result]: reading the attribute before the stage ran raises. *)
Definition get_result (stage : Stage) : result StageResult :=
  match result_attr stage with
  | Some r => Ok r
  | None => Raise AttributeError
  end.

Definition set_result (stage : Stage) (r : StageResult) : Stage :=
  {| stage_kind := stage_kind stage; name := name stage; result_attr := Some r |}.

(** ** The log *)

(** What is handed to [LOG] and [log_proc].  Rendering to text belongs to
    the [ui] module; a message keeps the values that are rendered. *)
Inductive Msg : Type :=
  | PlanIntro (feature_names : list FeatureType) (n_test_files n_cpus n_gpus : Z)
  | StageIntro (stage : Stage)
  | StageOutro (stage : Stage)
  | Rule
  | FailuresBanner
  | ProcLog (stage_name : string) (proc : ProcessResult) (verbose : bool)
  | PlanOutro (details : list (string * Z * Z * Z)) (total passed time : Z).

(** ** State: the global log and the outside world the stages run in *)

Record State (World : Type) := {
  LOG : list Msg;
  world : World;
}.
Global Arguments LOG {World} _.
Global Arguments world {World} _.
Global Arguments Build_State {World} _ _.

Definition M (World A : Type) : Type := State World → result (A * State World).

Global Instance M_ret {World} : MRet (M World) := λ A a st, Ok (a, st).
Global Instance M_bind {World} : MBind (M World) := λ A B f m st,
  match m st with
  | Ok (a, st') => f a st'
  | Raise e => Raise e
  end.

(** [LOG(msg)] *)
Definition log {World} (msg : Msg) : M World () :=
  λ st, Ok ((), {| LOG := LOG st ++ [msg]; world := world st |}).

(** [LOG.clear()] *)
Definition log_clear {World} : M World () :=
  λ st, Ok ((), {| LOG := []; world := world st |}).

(** A call into the outside world. *)
Definition extern {World A} (f : World → A * World) : M World A :=
  λ st, let '(a, w) := f (world st) in Ok (a, {| LOG := LOG st; world := w |}).

(** [for x in xs: body(x)] *)
Fixpoint for_each {World A} (body : A → M World ()) (xs : list A) : M World () :=
  match xs with
  | [] => mret ()
  | x :: xs => body x;; for_each body xs
  end.

Definition lift {World A} (r : result A) : M World A :=
  λ st, match r with Ok a => Ok (a, st) | Raise e => Raise e end.

(** [log_proc(name, proc, config, verbose)] of the [stages] package writes
    the report entry of one process to the log. *)
Definition log_proc {World} (name : string) (proc : ProcessResult)
    (config : Config) (verbose : bool) : M World () :=
  log (ProcLog name proc verbose).

(** Running a stage, [stage(config, system)], spawns its workers through
    the process executor and yields the stage's result; the executor is
    outside this code, so it is an interface here.  Worker outcomes are
    data: a call does not raise. *)
Class StageRunner (World : Type) :=
  stage_call : Stage → Config → System → World → StageResult * World.

(** The table [STAGES] from feature name to stage constructor. *)
Definition StageTable : Type := FeatureType → option (Config → System → result Stage).

Module TestPlan.

Record t := {
  _config : Config;
  _system : System;
  _stages : list Stage;
}.

(** [STAGES[feature](config, system)] *)
Definition make_stage (STAGES : StageTable) (config : Config) (system : System)
    (feature : FeatureType) : result Stage :=
  match STAGES feature with
  | Some ctor => ctor config system
  | None => Raise KeyError
  end.

(** [__init__] *)
Definition init (STAGES : StageTable) (config : Config) (system : System) : result t :=
  stages ← mapM (make_stage STAGES config system) (features config);
  mret {| _config := config; _system := system; _stages := stages |}.

(** The [intro] property. *)
Definition intro (self : t) : result Msg :=
  let cpus := Py.len (cpus (_system self)) in
  gpus ← match gpus (_system self) with
         | Ok gs => Ok (Py.len gs)
         | Raise ImportError => Ok 0
         | Raise e => Raise e
         end;
  mret (PlanIntro (features (_config self))
                  (Py.len (test_files (_config self))) cpus gpus).

(** [outro(total, passed)] *)
Definition outro (self : t) (total_ passed_ : Z) : result Msg :=
  details ← mapM (λ s, r ← get_result s;
                       mret (name s, passed r, total r, time r)) (_stages self);
  times ← mapM (λ s, time <$> get_result s) (_stages self);
  mret (PlanOutro details total_ passed_ (foldl Z.add 0 times)).

Section methods.
Context {World : Type} {runner : StageRunner World}.

(** [_log_failures(total, passed)] *)
Definition _log_failures (self : t) (total_ passed_ : Z) : M World () :=
  if decide (total_ = passed_) then mret ()
  else
    log FailuresBanner;;
    for_each (λ stage,
      r ← lift (get_result stage);
      let procs := filter (λ proc, returncode proc ≠ 0) (procs r) in
      for_each (λ proc, log_proc (name stage) proc (_config self) true) procs)
      (_stages self).

(** The body of the loop over [self._stages] in [execute]; the stage
    object leaves it with its [result] set. *)
Definition run_stage (self : t) (stage : Stage) : M World Stage :=
  log (StageIntro stage);;
  r ← extern (stage_call stage (_config self) (_system self));
  let stage := set_result stage r in
  log (StageOutro stage);;
  mret stage.

(** [execute()]: the exit code, and the plan whose stages now carry
    their results. *)
Definition execute (self : t) : M World (Z * t) :=
  log_clear;;
  banner ← lift (intro self);
  log banner;;
  stages ← mapM (run_stage self) (_stages self);
  let self := {| _config := _config self; _system := _system self;
                 _stages := stages |} in
  results ← lift (mapM get_result (_stages self));
  let all_procs := concat (procs <$> results) in
  let total := Py.len all_procs in
  let passed := Py.sum_bool (λ proc, returncode proc =? 0) all_procs in
  log Rule;;
  _log_failures self total passed;;
  summary ← lift (outro self total passed);
  log summary;;
  mret (Py.int (bool_decide (total - passed > 0)), self).

End methods.

End TestPlan.

(** ** Notions the specification uses to talk about inventories *)

(** The flattened, group-order-preserving sequence of core ids. *)
Definition flat_ids (system : System) : list Z := concat (ids <$> cpus system).

(** The total number of usable cores. *)
Definition total_cores (system : System) : Z := Py.len (flat_ids system).

(** Every group holds exactly one core id. *)
Definition single_core (system : System) : Prop :=
  Forall (λ g, length (ids g) = 1%nat) (cpus system).

(** The data-model invariant on groups: distinct groups share no core id. *)
Definition disjoint_groups (system : System) : Prop :=
  ∀ (a b : nat) ga gb,
    a ≠ b → cpus system !! a = Some ga → cpus system !! b = Some gb →
    ∀ x, x ∈ ids ga → x ∉ ids gb.

(** The inventory of the specification's scenario: eight single-core groups. *)
Definition eight_cores : System :=
  {| cpus := (λ i, {| ids := [i] |}) <$> seqZ 0 8; gpus := Ok [] |}.

Definition scenario_config (requested : Z) : Config :=
  {| features := ["openmp"%string]; test_files := [];
     requested_workers := requested; cpu_pin := pin_strict;
     utility := 1; omps := 1; ompthreads := 2 |}.

Definition scenario_spec : StageSpec :=
  {| workers := 2; shards := [[0; 1; 2; 3]; [4; 5; 6; 7]] |}.

(** Two physical cores with two hardware threads each. *)
Definition two_pairs : System :=
  {| cpus := [ {| ids := [0; 1] |}; {| ids := [2; 3] |} ]; gpus := Ok [] |}.

(** An unpinned configuration with one OpenMP thread and [u] utility
    threads per worker, so that [procs = 1 + u]. *)
Definition unpinned_config (u : Z) : Config :=
  {| features := ["openmp"%string]; test_files := [];
     requested_workers := 0; cpu_pin := pin_none;
     utility := u; omps := 1; ompthreads := 1 |}.

(** ** Notions the specification uses to talk about a plan run *)

(** Specification side: the stages are run one after the other, in list
    order; each call starts in the world the previous call left and stores
    its result in the stage object. *)
Inductive sequential_run {World} {runner : StageRunner World}
    (config : Config) (system : System) :
    World → list Stage → list Stage → World → Prop :=
  | sequential_done w : sequential_run config system w [] [] w
  | sequential_step w stage r w1 rest rest' w2 :
      stage_call stage config system w = (r, w1) →
      sequential_run config system w1 rest rest' w2 →
      sequential_run config system w (stage :: rest) (set_result stage r :: rest') w2.

(** The messages the stages themselves leave in the log. *)
Definition stage_events (before after : list Stage) : list Msg :=
  concat (zip_with (λ s s', [StageIntro s; StageOutro s']) before after).

(** All completions of a run in occurrence order (stage order, then worker
    order), each with the name of its originating stage. *)
Definition tagged_procs (stages : list Stage) (results : list StageResult)
    : list (string * ProcessResult) :=
  concat (zip_with (λ s r, (λ proc, (name s, proc)) <$> procs r) stages results).

Definition failed (entry : string * ProcessResult) : Prop :=
  returncode entry.2 ≠ 0.

Global Instance failed_dec entry : Decision (failed entry).
Proof. unfold failed. apply _. Defined.

Definition failure_entry (entry : string * ProcessResult) : Msg :=
  ProcLog entry.1 entry.2 true.

(** Reading the log back: the process a report entry is about, with the
    stage name it carries; the stage a stage message is about. *)
Definition proc_entry (msg : Msg) : option (string * ProcessResult) :=
  match msg with
  | ProcLog stage_name proc _ => Some (stage_name, proc)
  | _ => None
  end.

Definition stage_of_event (msg : Msg) : option Stage :=
  match msg with
  | StageIntro stage | StageOutro stage => Some stage
  | _ => None
  end.

(** The gpu probe either answers or reports a missing toolkit. *)
Definition probe_answers (system : System) : Prop :=
  match gpus system with
  | Ok _ => True
  | Raise e => e = ImportError
  end.

(** The specification's scenario of three stages: A with two workers that
    pass, B with one worker that fails with code 1, C without workers.
    The world records the names of the stages that ran. *)
Definition abc_table : StageTable := λ feature,
  if decide (feature ∈ ["A"; "B"; "C"]%string)
  then Some (λ _ _, Ok {| stage_kind := feature; name := feature; result_attr := None |})
  else None.

Definition abc_runner : StageRunner (list string) := λ stage _ _ w,
  let ok := {| returncode := 0; elapsed := 1 |} in
  let ko := {| returncode := 1; elapsed := 1 |} in
  ({| procs := if decide (name stage = "A"%string) then [ok; ok]
               else if decide (name stage = "B"%string) then [ko] else [];
      time := 1 |},
   w ++ [name stage]).

Definition abc_config : Config :=
  {| features := ["A"; "B"; "C"]%string; test_files := [];
     requested_workers := 0; cpu_pin := pin_none;
     utility := 0; omps := 1; ompthreads := 1 |}.

(** A machine without GPU toolkit. *)
Definition no_toolkit : System :=
  {| cpus := cpus eight_cores; gpus := Raise ImportError |}.

Definition abc_plan : TestPlan.t :=
  {| TestPlan._config := abc_config; TestPlan._system := no_toolkit;
     TestPlan._stages :=
       (λ f, {| stage_kind := f; name := f; result_attr := None |})
       <$> ["A"; "B"; "C"]%string |}.

Definition empty_state : State (list string) := {| LOG := []; world := [] |}.

(** ** Further notions and inputs used by the properties *)

(** The same configuration with another worker request. *)
Definition with_requested (config : Config) (requested : Z) : Config :=
  {| features := features config; test_files := test_files config;
     requested_workers := requested; cpu_pin := cpu_pin config;
     utility := utility config; omps := omps config;
     ompthreads := ompthreads config |}.

(** A configuration whose per-worker requirement is zero. *)
Definition idle_config : Config :=
  {| features := ["openmp"%string]; test_files := [];
     requested_workers := 0; cpu_pin := pin_none;
     utility := 0; omps := 0; ompthreads := 4 |}.

(** A string without a comma. *)
Fixpoint comma_free (s : string) : Prop :=
  match s with
  | EmptyString => True
  | String c s => c ≠ ","%char ∧ comma_free s
  end.

(** A plan for the inventory without GPU toolkit and without features. *)
Definition empty_plan : TestPlan.t :=
  {| TestPlan._config := with_requested idle_config 0;
     TestPlan._system := no_toolkit;
     TestPlan._stages := [] |}.

(** A configuration that asks for a feature the table does not know. *)
Definition unknown_feature_config : Config :=
  {| features := ["A"; "D"; "B"]%string; test_files := [];
     requested_workers := 0; cpu_pin := pin_none;
     utility := 0; omps := 1; ompthreads := 1 |}.

(** The plan of the three-stage scenario once its stages have run. *)
Definition abc_results : list StageResult :=
  [ {| procs := [ {| returncode := 0; elapsed := 1 |};
                  {| returncode := 0; elapsed := 1 |} ]; time := 5 |};
    {| procs := [ {| returncode := 1; elapsed := 1 |} ]; time := 7 |};
    {| procs := []; time := 0 |} ].

Definition abc_done_plan : TestPlan.t :=
  {| TestPlan._config := abc_config; TestPlan._system := no_toolkit;
     TestPlan._stages :=
       zip_with (λ f r, {| stage_kind := f; name := f; result_attr := Some r |})
         ["A"; "B"; "C"]%string abc_results |}.

(** * Properties *)

(** ** The error monad and the built-ins *)

Section result_facts.
Context {A B : Type}.
Implicit Types (f : A → result B) (l : list A) (k : list B).

Lemma bind_Ok (m : result A) f b :
  m ≫= f = Ok b ↔ ∃ a, m = Ok a ∧ f a = Ok b.
Proof. destruct m; simpl; split; [eauto | intros (? & [= <-] & ?); done | done | intros (? & ? & ?); done]. Qed.

Lemma mapM_Ok_1 f l k :
  mapM f l = Ok k → Forall2 (λ x y, f x = Ok y) l k.
Proof.
  revert k. induction l as [|x l IH]; intros k; simpl.
  - intros [= <-]. constructor.
  - destruct (f x) as [y|] eqn:Hx; simpl; [|done].
    destruct (mapM f l) as [k'|]; simpl; [|done].
    intros [= <-]. constructor; auto.
Qed.

Lemma mapM_Ok_2 f l k :
  Forall2 (λ x y, f x = Ok y) l k → mapM f l = Ok k.
Proof. induction 1 as [|x y l k Hx _ IH]; simpl; [done|]. by rewrite Hx, IH. Qed.

Lemma mapM_Ok f l k :
  mapM f l = Ok k ↔ Forall2 (λ x y, f x = Ok y) l k.
Proof. split; auto using mapM_Ok_1, mapM_Ok_2. Qed.

Lemma mapM_Ok_fmap f (g : A → B) l :
  (∀ x, x ∈ l → f x = Ok (g x)) → mapM f l = Ok (g <$> l).
Proof.
  intros Hf. apply mapM_Ok_2, Forall2_fmap_r, Forall_Forall2_diag, Forall_forall.
  exact Hf.
Qed.

Lemma mapM_ext f (g : A → result B) l :
  (∀ x, f x = g x) → mapM f l = mapM g l.
Proof. intros Hfg. induction l as [|x l IH]; simpl; [done|]. by rewrite Hfg, IH. Qed.
End result_facts.

Lemma range_lookup lo hi (i : nat) j :
  Py.range lo hi !! i = Some j ↔ j = lo + Z.of_nat i ∧ lo + Z.of_nat i < hi.
Proof. unfold Py.range. rewrite lookup_seqZ. intuition lia. Qed.

Lemma range_elem lo hi j : j ∈ Py.range lo hi ↔ lo ≤ j < hi.
Proof. unfold Py.range. rewrite elem_of_seqZ. lia. Qed.

Lemma range_length lo hi : Py.len (Py.range lo hi) = Z.max 0 (hi - lo).
Proof. unfold Py.len, Py.range. rewrite length_seqZ. lia. Qed.

Lemma getitem_nonneg {A} (l : list A) j :
  0 ≤ j → Py.getitem l j = match l !! Z.to_nat j with
                           | Some x => Ok x
                           | None => Raise IndexError
                           end.
Proof.
  intros Hj. unfold Py.getitem.
  destruct (Z.ltb_spec j 0) as [?|_]; [lia|].
  destruct (Z.ltb_spec j 0) as [?|_]; [lia|]. done.
Qed.

Lemma sorted_Permutation xs : Py.sorted xs ≡ₚ xs.
Proof. apply merge_sort_Permutation. Qed.

Lemma sorted_Sorted xs : Sorted Z.le (Py.sorted xs).
Proof. apply (Sorted_merge_sort Z.le). Qed.

Lemma sorted_elem x xs : x ∈ Py.sorted xs ↔ x ∈ xs.
Proof. by rewrite sorted_Permutation. Qed.

Lemma sorted_length xs : length (Py.sorted xs) = length xs.
Proof. by rewrite sorted_Permutation. Qed.

Lemma sum_bool_bounds {A} (f : A → bool) xs :
  0 ≤ Py.sum_bool f xs ≤ Py.len xs.
Proof.
  unfold Py.len. induction xs as [|x xs IH]; simpl; [lia|].
  unfold Py.int. destruct (f x); lia.
Qed.

Lemma sum_bool_filter {A} (f : A → bool) xs :
  Py.sum_bool f xs = Py.len (filter (λ x, f x = true) xs).
Proof.
  unfold Py.len. induction xs as [|x xs IH]; simpl; [done|].
  rewrite filter_cons. unfold Py.int.
  destruct (f x) eqn:Hf; case_decide; simpl; try done; lia.
Qed.

Lemma slice_lookup {A} (xs : list A) lo hi (n : nat) :
  0 ≤ lo →
  Py.slice xs lo hi !! n
  = if decide (lo + Z.of_nat n < hi) then xs !! Z.to_nat (lo + Z.of_nat n) else None.
Proof.
  intros Hlo. unfold Py.slice. case_decide.
  - rewrite lookup_take_lt by lia. rewrite lookup_drop. f_equal. lia.
  - apply lookup_take_ge. lia.
Qed.

Lemma slice_length {A} (xs : list A) lo hi :
  0 ≤ lo ≤ hi → hi ≤ Py.len xs → Py.len (Py.slice xs lo hi) = hi - lo.
Proof.
  unfold Py.len, Py.slice. intros ? ?.
  rewrite length_take, length_drop. lia.
Qed.

Lemma slice_elem {A} (xs : list A) lo hi x :
  0 ≤ lo →
  x ∈ Py.slice xs lo hi ↔ ∃ j, lo ≤ j < hi ∧ xs !! Z.to_nat j = Some x.
Proof.
  intros Hlo. rewrite list_elem_of_lookup. split.
  - intros [n Hn]. rewrite slice_lookup in Hn by done.
    case_decide; [|done]. exists (lo + Z.of_nat n). split; [lia|done].
  - intros (j & Hj & Hx). exists (Z.to_nat (j - lo)).
    rewrite slice_lookup by done.
    rewrite decide_True by lia. rewrite <- Hx. f_equal. lia.
Qed.

(** ** The OpenMP stage *)

Lemma getitem_range_slice {A} (xs : list A) lo hi :
  0 ≤ lo → hi ≤ Py.len xs →
  mapM (Py.getitem xs) (Py.range lo hi) = Ok (Py.slice xs lo hi).
Proof.
  intros Hlo Hhi. apply mapM_Ok_2, Forall2_same_length_lookup_2.
  - unfold Py.range, Py.slice, Py.len in *.
    rewrite length_seqZ, length_take, length_drop. lia.
  - intros n j x Hj Hx. apply range_lookup in Hj as [-> Hlt].
    rewrite slice_lookup in Hx by done. rewrite decide_True in Hx by done.
    rewrite getitem_nonneg by lia. by rewrite Hx.
Qed.

Lemma shard_of_Ok cpus k i :
  0 ≤ k → 0 ≤ i → (i + 1) * k ≤ Py.len cpus →
  OMP.shard_of cpus k i
  = Ok (Py.sorted (concat (ids <$> Py.slice cpus (i * k) ((i + 1) * k)))).
Proof.
  intros Hk Hi Hlen. unfold OMP.shard_of.
  rewrite getitem_range_slice by nia. done.
Qed.

Lemma adjust_workers_bounds available requested w :
  0 ≤ available → 0 ≤ requested →
  adjust_workers available requested = Ok w → 0 ≤ w ≤ available.
Proof.
  unfold adjust_workers. intros Ha Hr.
  destruct (Z.eqb_spec requested 0); [intros [= <-]; lia|].
  destruct (_ && _); [done|]. intros [= <-]. lia.
Qed.

(** The result of [compute_spec] in closed form, for a positive per-worker
    requirement and a non-negative request. *)
Lemma compute_spec_Ok config system :
  let k := OMP.procs config in
  1 ≤ k → 0 ≤ requested_workers config →
  OMP.compute_spec config system
  = w ← adjust_workers (Py.len (cpus system) `div` k) (requested_workers config);
    Ok {| workers := w;
          shards := (λ i, Py.sorted (concat
                       (ids <$> Py.slice (cpus system) (i * k) ((i + 1) * k))))
                    <$> Py.range 0 w |}.
Proof.
  intros k Hk Hr. unfold OMP.compute_spec, Py.floordiv. fold k.
  destruct (Z.eqb_spec k 0) as [?|_]; [lia|]. simpl.
  assert (0 ≤ Py.len (cpus system) `div` k) as Hav.
  { apply Z.div_pos; unfold Py.len; lia. }
  destruct (adjust_workers _ _) as [w|e] eqn:Hw; simpl; [|done].
  apply adjust_workers_bounds in Hw as Hb; [|done..].
  erewrite mapM_Ok_fmap; [done|].
  intros i Hi%range_elem. apply shard_of_Ok; [lia..|].
  pose proof (Z.mul_div_le (Py.len (cpus system)) k). nia.
Qed.

Example compute_spec_scenario :
  OMP.compute_spec (scenario_config 0) eight_cores
  = Ok {| workers := 2; shards := [[0; 1; 2; 3]; [4; 5; 6; 7]] |}.
Proof. vm_compute. reflexivity. Qed.

Example shard_args_scenario :
  OMP.shard_args [0; 1; 2; 3] (scenario_config 0)
  = ["--omps"; "1"; "--ompthreads"; "2"; "--cpu-bind"; "0,1,2,3"]%string.
Proof. vm_compute. reflexivity. Qed.

Lemma single_ids_take_drop (gs : list CPUInfo) (n m : nat) :
  Forall (λ g, length (ids g) = 1%nat) gs →
  concat (ids <$> take n (drop m gs)) = take n (drop m (concat (ids <$> gs))).
Proof.
  intros Hs. revert n m.
  induction Hs as [|g gs Hg _ IH]; intros n m.
  - simpl. by rewrite !drop_nil, !take_nil.
  - destruct g as [[|x [|? ?]]]; simplify_eq/=.
    destruct m as [|m]; simpl; [|apply IH].
    destruct n as [|n]; simpl; [done|].
    f_equal. apply (IH n 0%nat).
Qed.

Lemma single_core_slice system lo hi :
  single_core system →
  concat (ids <$> Py.slice (cpus system) lo hi) = Py.slice (flat_ids system) lo hi.
Proof. apply single_ids_take_drop. Qed.

Lemma single_ids_length (gs : list CPUInfo) :
  Forall (λ g, length (ids g) = 1%nat) gs →
  length (concat (ids <$> gs)) = length gs.
Proof.
  induction 1 as [|g gs Hg _ IH]; csimpl; [done|].
  by rewrite length_app, Hg, IH.
Qed.

Lemma single_core_total system :
  single_core system → total_cores system = Py.len (cpus system).
Proof.
  unfold total_cores, flat_ids, Py.len. intros Hs. f_equal.
  by apply single_ids_length.
Qed.

(** C1 (as amended): in automatic mode ([requested_workers == 0]) and with
    a per-worker requirement [k >= 1], [compute_spec] returns a worker count
    of [floor(G / k)], where [G] is the number of CPU groups of the
    inventory; this is [floor(C / k)] for the total number [C] of cores
    whenever every group holds exactly one core id. *)
Theorem worker_count_auto config system :
  let k := OMP.procs config in
  1 ≤ k → requested_workers config = 0 →
  ∃ spec, OMP.compute_spec config system = Ok spec
    ∧ workers spec = Py.len (cpus system) `div` k
    ∧ (single_core system → workers spec = total_cores system `div` k).
Proof.
  intros k Hk Hr. rewrite compute_spec_Ok by (fold k; lia). fold k.
  rewrite Hr. unfold adjust_workers. simpl.
  eexists. split; [done|]. simpl. split; [done|].
  intros Hs. by rewrite single_core_total.
Qed.

Lemma worker_count_auto_witness :
  ∃ spec, OMP.compute_spec (scenario_config 0) eight_cores = Ok spec
    ∧ workers spec = Py.len (cpus eight_cores) `div` OMP.procs (scenario_config 0)
    ∧ (single_core eight_cores →
       workers spec = total_cores eight_cores `div` OMP.procs (scenario_config 0)).
Proof.
  apply (worker_count_auto (scenario_config 0) eight_cores);
    [vm_compute; congruence | reflexivity].
Defined.

(** C1 (as stated) fails: two groups of two hardware threads each give
    [C = 4] cores; with [k = 2] the claim promises [floor(4 / 2) = 2]
    workers, the code returns 1. *)
Lemma worker_count_not_core_quotient :
  OMP.procs (unpinned_config 1) = 2
  ∧ requested_workers (unpinned_config 1) = 0
  ∧ total_cores two_pairs = 4
  ∧ OMP.compute_spec (unpinned_config 1) two_pairs
    = Ok {| workers := 1; shards := [[0; 1; 2; 3]] |}
  ∧ ¬ (∀ spec, OMP.compute_spec (unpinned_config 1) two_pairs = Ok spec →
         workers spec = total_cores two_pairs `div` OMP.procs (unpinned_config 1)).
Proof.
  repeat split; try (vm_compute; reflexivity).
  intros H. specialize (H _ eq_refl). vm_compute in H. discriminate.
Qed.

Lemma elem_of_concat {A} (x : A) (ls : list (list A)) :
  x ∈ concat ls ↔ ∃ l, l ∈ ls ∧ x ∈ l.
Proof.
  induction ls as [|l ls IH]; simpl.
  - split; [by intros ?%not_elem_of_nil | by intros (? & ?%not_elem_of_nil & _)].
  - rewrite elem_of_app, IH. split.
    + intros [Hx|(l' & Hl' & Hx)]; [exists l|exists l'];
        (split; [|done]); apply elem_of_cons; auto.
    + intros (l' & [->|Hl']%elem_of_cons & Hx); eauto.
Qed.

(** Membership in the sorted ids of a run of groups. *)
Lemma shard_elem cpus lo hi x :
  0 ≤ lo →
  x ∈ Py.sorted (concat (ids <$> Py.slice cpus lo hi))
  ↔ ∃ a g, lo ≤ a < hi ∧ cpus !! Z.to_nat a = Some g ∧ x ∈ ids g.
Proof.
  intros Hlo. rewrite sorted_elem, elem_of_concat. split.
  - intros (l & (g & -> & Hg)%list_elem_of_fmap & Hx).
    apply slice_elem in Hg as (a & Ha & Hg); [|done]. eauto.
  - intros (a & g & Ha & Hg & Hx). exists (ids g). split; [|done].
    apply list_elem_of_fmap_2, slice_elem; eauto.
Qed.

(** What a returned [StageSpec] looks like. *)
Lemma compute_spec_inv config system spec :
  let k := OMP.procs config in
  1 ≤ k → 0 ≤ requested_workers config →
  OMP.compute_spec config system = Ok spec →
  0 ≤ workers spec ∧ workers spec * k ≤ Py.len (cpus system)
  ∧ adjust_workers (Py.len (cpus system) `div` k) (requested_workers config)
    = Ok (workers spec)
  ∧ shards spec
    = (λ i, Py.sorted (concat
              (ids <$> Py.slice (cpus system) (i * k) ((i + 1) * k))))
      <$> Py.range 0 (workers spec).
Proof.
  intros k Hk Hr. subst k. rewrite compute_spec_Ok by done.
  intros (w & Hw & [= <-])%bind_Ok. simpl.
  apply adjust_workers_bounds in Hw as Hb;
    [|apply Z.div_pos; unfold Py.len; lia|done].
  pose proof (Z.mul_div_le (Py.len (cpus system)) (OMP.procs config)).
  repeat split; [lia|nia|done].
Qed.

Lemma compute_spec_shard config system spec (i : nat) shard :
  let k := OMP.procs config in
  1 ≤ k → 0 ≤ requested_workers config →
  OMP.compute_spec config system = Ok spec →
  shards spec !! i = Some shard →
  Z.of_nat i < workers spec
  ∧ shard = Py.sorted (concat
      (ids <$> Py.slice (cpus system) (Z.of_nat i * k) ((Z.of_nat i + 1) * k))).
Proof.
  intros k Hk Hr Hspec Hi. subst k.
  destruct (compute_spec_inv _ _ _ Hk Hr Hspec) as (_ & _ & _ & Hsh).
  rewrite Hsh, list_lookup_fmap_Some in Hi.
  destruct Hi as (j & -> & [-> ?]%range_lookup). split; [lia|].
  by rewrite Z.add_0_l.
Qed.

(** C2 (as amended): for a per-worker requirement [k >= 1] and a
    non-negative request, every [StageSpec] returned by [compute_spec] has
    [len(shards) == worker_count]; shard [i] holds the ids of the [k]
    CPU groups at positions [[i*k, (i+1)*k)] of the inventory (hence
    exactly [k] ids when every group holds one core id); and when the
    groups of the inventory are pairwise disjoint, no core id appears in
    two different shards. *)
Theorem shards_partition config system spec :
  let k := OMP.procs config in
  1 ≤ k → 0 ≤ requested_workers config →
  OMP.compute_spec config system = Ok spec →
  Py.len (shards spec) = workers spec
  ∧ (∀ (i : nat) shard, shards spec !! i = Some shard →
       let groups :=
         Py.slice (cpus system) (Z.of_nat i * k) ((Z.of_nat i + 1) * k) in
       Py.len groups = k
       ∧ shard ≡ₚ concat (ids <$> groups)
       ∧ (single_core system → Py.len shard = k))
  ∧ (disjoint_groups system →
     ∀ (i j : nat) si sj,
       i ≠ j → shards spec !! i = Some si → shards spec !! j = Some sj →
       ∀ x, x ∈ si → x ∉ sj).
Proof.
  intros k Hk Hr Hspec. subst k.
  destruct (compute_spec_inv _ _ _ Hk Hr Hspec) as (Hw0 & Hwk & _ & Hsh).
  split; [|split].
  - rewrite Hsh. unfold Py.len. rewrite length_fmap.
    pose proof (range_length 0 (workers spec)) as Hl. unfold Py.len in Hl. lia.
  - intros i shard Hi groups.
    destruct (compute_spec_shard _ _ _ _ _ Hk Hr Hspec Hi) as [Hlt Hshard].
    assert (Py.len groups = OMP.procs config) as Hlen.
    { unfold groups. rewrite slice_length; nia. }
    split; [done|]. rewrite Hshard. split; [apply sorted_Permutation|].
    intros Hs. unfold Py.len in *. rewrite sorted_length.
    rewrite single_ids_length; [done|].
    unfold Py.slice. by apply Forall_take, Forall_drop.
  - intros Hdis i j si sj Hij Hi Hj x Hxi Hxj.
    destruct (compute_spec_shard _ _ _ _ _ Hk Hr Hspec Hi) as [_ ->].
    destruct (compute_spec_shard _ _ _ _ _ Hk Hr Hspec Hj) as [_ ->].
    apply shard_elem in Hxi as (a & ga & Ha & Hga & Hxa); [|nia].
    apply shard_elem in Hxj as (b & gb & Hb & Hgb & Hxb); [|nia].
    refine (Hdis (Z.to_nat a) (Z.to_nat b) ga gb _ Hga Hgb x Hxa Hxb).
    nia.
Qed.

Lemma shards_partition_witness :
  1 ≤ OMP.procs (scenario_config 0)
  ∧ 0 ≤ requested_workers (scenario_config 0)
  ∧ OMP.compute_spec (scenario_config 0) eight_cores = Ok scenario_spec
  ∧ Py.len (shards scenario_spec) = workers scenario_spec.
Proof.
  assert (1 ≤ OMP.procs (scenario_config 0)) as H1 by (vm_compute; congruence).
  assert (0 ≤ requested_workers (scenario_config 0)) as H2 by (vm_compute; congruence).
  assert (OMP.compute_spec (scenario_config 0) eight_cores = Ok scenario_spec) as H3
    by (vm_compute; reflexivity).
  split; [exact H1|]. split; [exact H2|]. split; [exact H3|].
  exact (proj1 (shards_partition (scenario_config 0) eight_cores scenario_spec H1 H2 H3)).
Defined.

(** C2 (as stated) fails: with two groups of two hardware threads each and
    a per-worker requirement of 1, two workers are planned and each shard
    holds two core ids, not one. *)
Lemma shard_size_not_procs :
  OMP.procs (unpinned_config 0) = 1
  ∧ OMP.compute_spec (unpinned_config 0) two_pairs
    = Ok {| workers := 2; shards := [[0; 1]; [2; 3]] |}
  ∧ ¬ (∀ spec, OMP.compute_spec (unpinned_config 0) two_pairs = Ok spec →
         workers spec ≠ 0 →
         Forall (λ shard, Py.len shard = OMP.procs (unpinned_config 0)) (shards spec)).
Proof.
  split; [vm_compute; reflexivity|]. split; [vm_compute; reflexivity|].
  intros H. specialize (H _ eq_refl). simpl in H.
  apply Forall_cons_1 in H as [H _]; [|discriminate].
  vm_compute in H. discriminate.
Qed.

(** C3 (as amended): worker [i] is assigned, in ascending order, the ids
    of the CPU groups at positions [[i*k, (i+1)*k)] of the group sequence,
    for [k = cores_per_worker]; when every group holds a single core id
    these are the ids at positions [[i*k, (i+1)*k)] of the flattened id
    sequence.  In the scenario of eight single-core groups with ids 0..7,
    strict pinning, [omps = 1], [ompthreads = 2], [utility = 1] and
    [requested_workers = 0], the result is two workers with shards
    (0,1,2,3) and (4,5,6,7). *)
Theorem shard_slices :
  (∀ config system spec (i : nat),
     1 ≤ OMP.procs config → 0 ≤ requested_workers config →
     OMP.compute_spec config system = Ok spec →
     let k := OMP.procs config in
     let lo := Z.of_nat i * k in
     let hi := (Z.of_nat i + 1) * k in
     (is_Some (shards spec !! i) ↔ Z.of_nat i < workers spec)
     ∧ ∀ shard, shards spec !! i = Some shard →
         shard = Py.sorted (concat (ids <$> Py.slice (cpus system) lo hi))
         ∧ (single_core system →
            shard = Py.sorted (Py.slice (flat_ids system) lo hi)))
  ∧ OMP.procs (scenario_config 0) = 4
  ∧ OMP.compute_spec (scenario_config 0) eight_cores
    = Ok {| workers := 2; shards := [[0; 1; 2; 3]; [4; 5; 6; 7]] |}.
Proof.
  split; [|split; vm_compute; reflexivity].
  intros config system spec i Hk Hr Hspec k lo hi. split.
  - destruct (compute_spec_inv _ _ _ Hk Hr Hspec) as (Hw0 & _ & _ & Hsh).
    rewrite Hsh, list_lookup_fmap, fmap_is_Some. split.
    + intros [j [_ ?]%range_lookup]. lia.
    + intros Hi. exists (0 + Z.of_nat i). apply range_lookup. lia.
  - intros shard Hi.
    destruct (compute_spec_shard _ _ _ _ _ Hk Hr Hspec Hi) as [_ ->].
    split; [done|]. intros Hs. by rewrite single_core_slice.
Qed.

Lemma shard_slices_witness :
  1 ≤ OMP.procs (scenario_config 0)
  ∧ 0 ≤ requested_workers (scenario_config 0)
  ∧ OMP.compute_spec (scenario_config 0) eight_cores = Ok scenario_spec
  ∧ (is_Some (shards scenario_spec !! 1%nat) ↔ 1 < workers scenario_spec).
Proof.
  assert (1 ≤ OMP.procs (scenario_config 0)) as H1 by (vm_compute; congruence).
  assert (0 ≤ requested_workers (scenario_config 0)) as H2 by (vm_compute; congruence).
  assert (OMP.compute_spec (scenario_config 0) eight_cores = Ok scenario_spec) as H3
    by (vm_compute; reflexivity).
  split; [exact H1|]. split; [exact H2|]. split; [exact H3|].
  exact (proj1 (proj1 shard_slices (scenario_config 0) eight_cores scenario_spec
                  1%nat H1 H2 H3)).
Defined.

(** C3 (as stated) fails: with two groups of two hardware threads each and
    a per-worker requirement of 1, worker 0 is assigned ids 0 and 1, while
    positions [[0, 1)] of the flattened id sequence hold id 0 only. *)
Lemma shard_not_flat_slice :
  OMP.procs (unpinned_config 0) = 1
  ∧ OMP.compute_spec (unpinned_config 0) two_pairs
    = Ok {| workers := 2; shards := [[0; 1]; [2; 3]] |}
  ∧ Py.slice (flat_ids two_pairs) (0 * 1) ((0 + 1) * 1) = [0]
  ∧ ¬ ([0; 1] ≡ₚ Py.slice (flat_ids two_pairs) (0 * 1) ((0 + 1) * 1)).
Proof.
  repeat split; try (vm_compute; reflexivity).
  intros H%Permutation_length. vm_compute in H. discriminate.
Qed.

Lemma compute_spec_shard_sorted config system spec shard :
  OMP.compute_spec config system = Ok spec → shard ∈ shards spec →
  ∃ groups, shard = Py.sorted (concat (ids <$> groups)).
Proof.
  unfold OMP.compute_spec.
  intros (available & _ & (w & _ & (shs & Hshs & [= <-])%bind_Ok)%bind_Ok)%bind_Ok.
  simpl. intros (n & Hn)%list_elem_of_lookup.
  apply mapM_Ok_1 in Hshs.
  destruct (Forall2_lookup_r _ _ _ _ _ Hshs Hn) as (i & _ & Hi).
  unfold OMP.shard_of in Hi. apply bind_Ok in Hi as (groups & _ & [= <-]). eauto.
Qed.

(** C8: [shard_args] returns a list that begins with ["--omps"],
    [str(config.omps)], ["--ompthreads"], [str(config.ompthreads)]; the
    list continues with ["--cpu-bind"] and the comma-joined ids of the
    shard if and only if [config.cpu_pin != "none"] (nothing follows
    otherwise); and every shard produced by [compute_spec] lists its ids in
    ascending order. *)
Theorem shard_args_format :
  (∀ shard config,
     take 4 (OMP.shard_args shard config)
     = ["--omps"%string; Py.str (omps config);
        "--ompthreads"%string; Py.str (ompthreads config)]
     ∧ (drop 4 (OMP.shard_args shard config)
        = ["--cpu-bind"%string; Py.join "," (Py.str <$> shard)]
        ↔ cpu_pin config ≠ pin_none)
     ∧ (drop 4 (OMP.shard_args shard config) = [] ↔ cpu_pin config = pin_none))
  ∧ (∀ config system spec shard,
       OMP.compute_spec config system = Ok spec → shard ∈ shards spec →
       Sorted Z.le shard).
Proof.
  split.
  - intros shard config. unfold OMP.shard_args.
    destruct (decide (cpu_pin config ≠ pin_none)) as [Hpin|Hpin%dec_stable]; simpl.
    + split; [done|]. split; split; done.
    + split; [done|]. split; split; done.
  - intros config system spec shard Hspec Hin.
    destruct (compute_spec_shard_sorted _ _ _ _ Hspec Hin) as [groups ->].
    apply sorted_Sorted.
Qed.

Lemma shard_args_format_witness :
  OMP.compute_spec (scenario_config 0) eight_cores = Ok scenario_spec
  ∧ [4; 5; 6; 7] ∈ shards scenario_spec
  ∧ Sorted Z.le [4; 5; 6; 7].
Proof.
  assert (OMP.compute_spec (scenario_config 0) eight_cores = Ok scenario_spec) as H1
    by (vm_compute; reflexivity).
  assert ([4; 5; 6; 7] ∈ shards scenario_spec) as H2
    by (right; left).
  split; [exact H1|]. split; [exact H2|].
  exact (proj2 shard_args_format (scenario_config 0) eight_cores scenario_spec
           [4; 5; 6; 7] H1 H2).
Defined.

(** ** The worker-count policy *)

(** C4: for non-negative [available] and [requested],
    [adjust_workers(available, 0) == available]; for [requested > 0] the
    result is [min(available, requested)] unless [available == 0], in which
    case the configuration error is raised; an error is raised exactly when
    [requested > 0] and [available == 0]; and
    [adjust_workers(2, 5) == 2] without an error. *)
Theorem adjust_workers_clamps :
  (∀ available requested,
     0 ≤ available → 0 ≤ requested →
     (requested = 0 → adjust_workers available requested = Ok available)
     ∧ (0 < requested → 0 < available →
        adjust_workers available requested = Ok (Z.min available requested))
     ∧ (adjust_workers available requested = Raise ConfigurationError
        ↔ 0 < requested ∧ available = 0)
     ∧ (raises (adjust_workers available requested)
        ↔ 0 < requested ∧ available = 0))
  ∧ adjust_workers 2 5 = Ok 2.
Proof.
  split; [|reflexivity].
  intros available requested Ha Hr. unfold raises, adjust_workers.
  destruct (Z.eqb_spec requested 0) as [->|Hne].
  - split; [done|]. split; [lia|]. split; (split; [|lia]).
    + intros [=].
    + intros [? [=]].
  - destruct (Z.eqb_spec available 0) as [->|Hav].
    + rewrite Z.min_r by lia. simpl.
      split; [lia|]. split; [lia|]. split; (split; [lia|eauto]).
    + rewrite andb_false_r.
      split; [lia|]. split; [intros _ _; f_equal; lia|].
      split; (split; [|lia]).
      * intros [=].
      * intros [? [=]].
Qed.

Lemma adjust_workers_clamps_witness :
  0 ≤ 2 ∧ 0 ≤ 5 ∧ (0 < 5 → 0 < 2 → adjust_workers 2 5 = Ok (Z.min 2 5)).
Proof.
  assert (0 ≤ 2) as H1 by lia.
  assert (0 ≤ 5) as H2 by lia.
  split; [exact H1|]. split; [exact H2|].
  exact (proj1 (proj2 (proj1 adjust_workers_clamps 2 5 H1 H2))).
Defined.

(** ** The plan *)

Example abc_init : TestPlan.init abc_table abc_config no_toolkit = Ok abc_plan.
Proof. vm_compute. reflexivity. Qed.

Example abc_execute_code :
  fst <$> (fst <$> TestPlan.execute (runner := abc_runner) abc_plan empty_state) = Ok 1.
Proof. vm_compute. reflexivity. Qed.

Example abc_execute_world :
  (world ∘ snd) <$> TestPlan.execute (runner := abc_runner) abc_plan empty_state
  = Ok ["A"; "B"; "C"]%string.
Proof. vm_compute. reflexivity. Qed.

Section plan_facts.
Context {World : Type} {runner : StageRunner World}.
Implicit Types (st : State World) (self : TestPlan.t).
Implicit Types (stages : list Stage) (results : list StageResult).

Lemma M_bind_unfold {A B} (m : M World A) (f : A → M World B) st :
  (m ≫= f) st
  = match m st with
    | Ok (a, st') => f a st'
    | Raise e => Raise e
    end.
Proof. reflexivity. Qed.

Lemma for_each_log {A} (f : A → Msg) (xs : list A) st :
  for_each (λ x, log (f x)) xs st
  = Ok ((), {| LOG := LOG st ++ (f <$> xs); world := world st |}).
Proof.
  revert st. induction xs as [|x xs IH]; intros st; simpl.
  - rewrite app_nil_r. by destruct st.
  - rewrite M_bind_unfold. simpl. rewrite IH. simpl. by rewrite <- app_assoc.
Qed.

Lemma tagged_procs_cons s stages r results :
  tagged_procs (s :: stages) (r :: results)
  = ((λ proc, (name s, proc)) <$> procs r) ++ tagged_procs stages results.
Proof. reflexivity. Qed.

Lemma failure_entries_stage (n : string) (ps : list ProcessResult) :
  (λ proc, ProcLog n proc true) <$> filter (λ proc, returncode proc ≠ 0) ps
  = failure_entry <$> filter failed ((λ proc, (n, proc)) <$> ps).
Proof.
  induction ps as [|p ps IH]; [done|]. csimpl.
  rewrite !filter_cons. unfold failed at 1. simpl.
  repeat case_decide; csimpl; rewrite ?IH; done || contradiction.
Qed.

(** The loop of [_log_failures] over stages whose results are set. *)
Lemma failures_loop config stages results st :
  Forall2 (λ s r, result_attr s = Some r) stages results →
  for_each (λ stage,
    r ← lift (get_result stage);
    for_each (λ proc, log_proc (name stage) proc config true)
             (filter (λ proc, returncode proc ≠ 0) (procs r))) stages st
  = Ok ((), {| LOG := LOG st
                      ++ (failure_entry <$> filter failed (tagged_procs stages results));
               world := world st |}).
Proof.
  intros Hres. revert st.
  induction Hres as [|s r stages results Hs _ IH]; intros st.
  - simpl. rewrite app_nil_r. by destruct st.
  - rewrite tagged_procs_cons, filter_app, fmap_app.
    cbn [for_each]. rewrite !M_bind_unfold.
    unfold lift, get_result. rewrite Hs.
    unfold log_proc. rewrite for_each_log, IH. simpl.
    by rewrite <- app_assoc, failure_entries_stage.
Qed.

Lemma run_stage_spec self stage st r w1 :
  stage_call stage (TestPlan._config self) (TestPlan._system self) (world st) = (r, w1) →
  TestPlan.run_stage self stage st
  = Ok (set_result stage r,
        {| LOG := LOG st ++ [StageIntro stage; StageOutro (set_result stage r)];
           world := w1 |}).
Proof.
  intros Hcall.
  unfold TestPlan.run_stage, extern, log, mbind, M_bind, mret, M_ret. simpl.
  rewrite Hcall. simpl. by rewrite <- app_assoc.
Qed.

Lemma stage_events_cons s stages s' stages' :
  stage_events (s :: stages) (s' :: stages')
  = [StageIntro s; StageOutro s'] ++ stage_events stages stages'.
Proof. reflexivity. Qed.

(** The loop of [execute] over the stages never raises; it is a
    [sequential_run]. *)
Lemma run_stages_spec self stages st :
  ∃ stages' w',
    mapM (TestPlan.run_stage self) stages st
    = Ok (stages', {| LOG := LOG st ++ stage_events stages stages'; world := w' |})
    ∧ sequential_run (TestPlan._config self) (TestPlan._system self)
        (world st) stages stages' w'.
Proof.
  revert st. induction stages as [|s stages IH]; intros st.
  - exists [], (world st). split; [|constructor].
    simpl. unfold mret, M_ret. unfold stage_events. simpl.
    rewrite app_nil_r. by destruct st.
  - destruct (stage_call s (TestPlan._config self) (TestPlan._system self) (world st))
      as [r w1] eqn:Hcall.
    pose proof (run_stage_spec self s st r w1 Hcall) as Hs.
    destruct (IH {| LOG := LOG st ++ [StageIntro s; StageOutro (set_result s r)];
                    world := w1 |}) as (stages' & w' & Hrun & Hseq).
    exists (set_result s r :: stages'), w'. split; [|by econstructor].
    cbn [mapM]. rewrite !M_bind_unfold, Hs.
    rewrite M_bind_unfold, Hrun. simpl.
    unfold mret, M_ret. by rewrite stage_events_cons, <- app_assoc.
Qed.

Lemma sequential_run_results config system w stages stages' w' :
  sequential_run config system w stages stages' w' →
  ∃ results,
    Forall2 (λ s r, result_attr s = Some r) stages' results
    ∧ mapM get_result stages' = Ok results.
Proof.
  induction 1 as [w|w s r w1 rest rest' w2 Hcall _ (results & Hres & Hget)].
  - exists []. by split; [constructor|].
  - exists (r :: results). split; [by constructor|].
    simpl. by rewrite Hget.
Qed.

Lemma sequential_run_names config system w stages stages' w' :
  sequential_run config system w stages stages' w' →
  Forall2 (λ s s', name s' = name s ∧ stage_kind s' = stage_kind s) stages stages'.
Proof. induction 1; constructor; auto. Qed.

Lemma mapM_get_result {A} (f : Stage → StageResult → A) stages results :
  Forall2 (λ s r, result_attr s = Some r) stages results →
  mapM (λ s, r ← get_result s; mret (f s r)) stages = Ok (zip_with f stages results).
Proof.
  induction 1 as [|s r ss rs Hs _ IH]; [done|].
  assert (get_result s = Ok r) as Hget by (unfold get_result; by rewrite Hs).
  cbn [mapM zip_with]. rewrite Hget. simpl. by rewrite IH.
Qed.

Lemma outro_Ok self results (total_ passed_ : Z) :
  Forall2 (λ s r, result_attr s = Some r) (TestPlan._stages self) results →
  ∃ details time_,
    TestPlan.outro self total_ passed_ = Ok (PlanOutro details total_ passed_ time_).
Proof.
  intros Hres. unfold TestPlan.outro.
  rewrite (mapM_get_result (λ s r, (name s, passed r, total r, time r)) _ _ Hres).
  simpl.
  pose proof (mapM_get_result (λ _ r, time r) _ _ Hres) as Htimes.
  erewrite (mapM_ext _ (λ s, r ← get_result s; mret (time r))), Htimes;
    [simpl; eauto|].
  intros s. by destruct (get_result s).
Qed.

End plan_facts.

Section plan_run.
Context {World : Type} {runner : StageRunner World}.
Implicit Types (st : State World) (self : TestPlan.t).

Lemma log_failures_spec self results (total_ passed_ : Z) st :
  Forall2 (λ s r, result_attr s = Some r) (TestPlan._stages self) results →
  TestPlan._log_failures self total_ passed_ st
  = Ok ((), {| LOG := LOG st
                      ++ (if decide (total_ = passed_) then []
                          else FailuresBanner
                               :: (failure_entry <$>
                                   filter failed (tagged_procs (TestPlan._stages self) results)));
               world := world st |}).
Proof.
  intros Hres. unfold TestPlan._log_failures. case_decide.
  - rewrite app_nil_r. by destruct st.
  - rewrite M_bind_unfold. unfold log at 1.
    rewrite (failures_loop _ _ _ _ Hres). simpl.
    by rewrite <- app_assoc.
Qed.

Lemma intro_Ok self :
  probe_answers (TestPlan._system self) →
  ∃ n_gpus,
    TestPlan.intro self
    = Ok (PlanIntro (features (TestPlan._config self))
                    (Py.len (test_files (TestPlan._config self)))
                    (Py.len (cpus (TestPlan._system self))) n_gpus)
    ∧ (gpus (TestPlan._system self) = Raise ImportError → n_gpus = 0).
Proof.
  unfold probe_answers, TestPlan.intro.
  destruct (gpus (TestPlan._system self)) as [gs|e]; simpl.
  - intros _. eexists. split; [done|]. done.
  - intros ->. simpl. eexists. split; [done|]. done.
Qed.

(** [execute] in closed form, once the banner could be built. *)
Lemma execute_spec self st banner :
  TestPlan.intro self = Ok banner →
  ∃ stages' w' results details time_,
    sequential_run (TestPlan._config self) (TestPlan._system self)
      (world st) (TestPlan._stages self) stages' w'
    ∧ Forall2 (λ s r, result_attr s = Some r) stages' results
    ∧ let all_procs := concat (procs <$> results) in
      let total_ := Py.len all_procs in
      let passed_ := Py.sum_bool (λ proc, returncode proc =? 0) all_procs in
      TestPlan.execute self st
      = Ok ((Py.int (bool_decide (total_ - passed_ > 0)),
             {| TestPlan._config := TestPlan._config self;
                TestPlan._system := TestPlan._system self;
                TestPlan._stages := stages' |}),
            {| LOG := [banner] ++ stage_events (TestPlan._stages self) stages'
                      ++ [Rule]
                      ++ (if decide (total_ = passed_) then []
                          else FailuresBanner
                               :: (failure_entry <$>
                                   filter failed (tagged_procs stages' results)))
                      ++ [PlanOutro details total_ passed_ time_];
               world := w' |}).
Proof.
  intros Hintro.
  destruct (run_stages_spec self (TestPlan._stages self)
              {| LOG := [banner]; world := world st |})
    as (stages' & w' & Hrun & Hseq).
  destruct (sequential_run_results _ _ _ _ _ _ Hseq) as (results & Hres & Hget).
  set (all_procs := concat (procs <$> results)).
  set (total_ := Py.len all_procs).
  set (passed_ := Py.sum_bool (λ proc, returncode proc =? 0) all_procs).
  set (self' := {| TestPlan._config := TestPlan._config self;
                   TestPlan._system := TestPlan._system self;
                   TestPlan._stages := stages' |}).
  destruct (outro_Ok self' results total_ passed_ Hres) as (details & time_ & Hout).
  exists stages', w', results, details, time_.
  split; [exact Hseq|]. split; [exact Hres|]. cbv zeta.
  fold all_procs total_ passed_ self'.
  unfold TestPlan.execute.
  rewrite M_bind_unfold. unfold log_clear at 1.
  rewrite M_bind_unfold. unfold lift at 1. rewrite Hintro.
  rewrite M_bind_unfold. unfold log at 1. cbn [LOG world app].
  rewrite M_bind_unfold, Hrun. cbn [LOG world TestPlan._config TestPlan._system].
  fold self'.
  rewrite M_bind_unfold. unfold lift at 1. cbn [TestPlan._stages self']. rewrite Hget.
  fold all_procs total_ passed_.
  rewrite M_bind_unfold. unfold log at 1.
  rewrite M_bind_unfold, (log_failures_spec self' results total_ passed_ _ Hres).
  rewrite M_bind_unfold. unfold lift at 1. rewrite Hout.
  rewrite M_bind_unfold. unfold log at 1. cbn [LOG world].
  unfold mret, M_ret. cbn [TestPlan._stages self'].
  repeat f_equal. by rewrite <- !app_assoc.
Qed.

End plan_run.

Lemma sum_bool_all {A} (f : A → bool) xs :
  Py.sum_bool f xs = Py.len xs ↔ Forall (λ x, f x = true) xs.
Proof.
  unfold Py.len. induction xs as [|x xs IH]; simpl.
  - split; [constructor|done].
  - pose proof (sum_bool_bounds f xs) as Hb. unfold Py.len in Hb.
    rewrite Forall_cons, <- IH. unfold Py.int.
    destruct (f x); split; try lia; intros [? ?]; try done; lia.
Qed.

Lemma passed_all_iff (ps : list ProcessResult) :
  Py.sum_bool (λ proc, returncode proc =? 0) ps = Py.len ps
  ↔ Forall (λ proc, returncode proc = 0) ps.
Proof.
  rewrite sum_bool_all. apply Forall_proper; [|done].
  intros p. split; [by intros ?%Z.eqb_eq | by intros ?%Z.eqb_eq].
Qed.

Lemma some_failed_iff (ps : list ProcessResult) :
  ¬ Forall (λ proc, returncode proc = 0) ps
  ↔ Exists (λ proc, returncode proc ≠ 0) ps.
Proof.
  split.
  - intros H. apply (not_Forall_Exists _) in H. exact H.
  - intros H. by apply Exists_not_Forall.
Qed.

Lemma exit_code_cases (total_ passed_ : Z) :
  0 ≤ passed_ ≤ total_ →
  (Py.int (bool_decide (total_ - passed_ > 0)) = 0 ↔ passed_ = total_)
  ∧ (Py.int (bool_decide (total_ - passed_ > 0)) = 1 ↔ passed_ ≠ total_).
Proof.
  intros Hb. unfold Py.int. case_bool_decide; split; split; lia || done.
Qed.

Lemma tagged_procs_snd stages results :
  Forall2 (λ s r, result_attr s = Some r) stages results →
  snd <$> tagged_procs stages results = concat (procs <$> results).
Proof.
  induction 1 as [|s r stages results _ _ IH]; [done|].
  rewrite tagged_procs_cons, fmap_app, IH. csimpl. f_equal.
  rewrite <- list_fmap_compose. apply list_fmap_id.
Qed.

Lemma omap_proc_entry_failures (entries : list (string * ProcessResult)) :
  omap proc_entry (failure_entry <$> entries) = entries.
Proof. induction entries as [|[n p] ? IH]; [done|]. csimpl. by rewrite IH. Qed.

Lemma omap_proc_entry_stage_events before after :
  omap proc_entry (stage_events before after) = [].
Proof.
  revert after. induction before as [|s before IH]; intros [|s' after]; try done.
  rewrite stage_events_cons, omap_app, IH. done.
Qed.

Lemma omap_stage_of_event_failures (entries : list (string * ProcessResult)) :
  omap stage_of_event (failure_entry <$> entries) = [].
Proof. induction entries as [|[n p] ? IH]; [done|]. csimpl. by rewrite IH. Qed.

Lemma omap_stage_of_event_stage_events before after :
  omap stage_of_event (stage_events before after)
  = concat (zip_with (λ s s', [s; s']) before after).
Proof.
  revert after. induction before as [|s before IH]; intros [|s' after]; try done.
  rewrite stage_events_cons, omap_app, IH. done.
Qed.

Section plan_claims.
Context {World : Type} {runner : StageRunner World}.
Implicit Types (st : State World) (self : TestPlan.t).

(** C5: when the banner can be built, [execute] returns; its exit code is
    0 if and only if every completion of every stage has return code 0,
    and 1 otherwise (so it is never anything but 0 or 1); [total] is the
    number of all completions and [passed] the number of those with a
    zero return code, as the summary shows them; and a run without any
    completion returns 0. *)
Theorem execute_exit_code self st :
  probe_answers (TestPlan._system self) →
  ∃ code self' st' results details time_,
    TestPlan.execute self st = Ok ((code, self'), st')
    ∧ sequential_run (TestPlan._config self) (TestPlan._system self)
        (world st) (TestPlan._stages self) (TestPlan._stages self') (world st')
    ∧ Forall2 (λ s r, result_attr s = Some r) (TestPlan._stages self') results
    ∧ let all_procs := concat (procs <$> results) in
      let total_ := Py.len all_procs in
      let passed_ := Py.len (filter (λ proc, returncode proc = 0) all_procs) in
      last (LOG st') = Some (PlanOutro details total_ passed_ time_)
      ∧ (code = 0 ↔ Forall (λ proc, returncode proc = 0) all_procs)
      ∧ (code = 1 ↔ Exists (λ proc, returncode proc ≠ 0) all_procs)
      ∧ (code = 0 ↔ total_ = passed_)
      ∧ (code = 0 ∨ code = 1)
      ∧ (total_ = 0 → code = 0).
Proof.
  intros Hprobe. destruct (intro_Ok self Hprobe) as (n_gpus & Hintro & _).
  destruct (execute_spec self st _ Hintro)
    as (stages' & w' & results & details & time_ & Hseq & Hres & Hexec).
  cbv zeta in Hexec.
  set (all_procs := concat (procs <$> results)) in *.
  pose proof (sum_bool_bounds (λ proc, returncode proc =? 0) all_procs) as Hb.
  pose proof (passed_all_iff all_procs) as Hall.
  pose proof (exit_code_cases _ _ Hb) as [H0 H1].
  assert (Py.sum_bool (λ proc, returncode proc =? 0) all_procs
          = Py.len (filter (λ proc, returncode proc = 0) all_procs)) as Hcount.
  { rewrite sum_bool_filter. f_equal. apply list_filter_iff.
    intros p. apply Z.eqb_eq. }
  eexists _, _, _, results, details, time_. split; [exact Hexec|].
  split; [exact Hseq|]. split; [exact Hres|]. cbv zeta. fold all_procs.
  cbn [LOG]. rewrite <- Hcount.
  split; [by rewrite !app_assoc, last_snoc|].
  split; [by rewrite H0|].
  split; [rewrite H1, Hall; apply some_failed_iff|].
  split; [rewrite H0; split; done|].
  split.
  - unfold Py.int. case_bool_decide; auto.
  - intros Hz. apply H0. lia.
Qed.

(** C10: in every execution of [execute] the aggregated counts, as they
    are handed to the summary, satisfy [0 <= passed <= total]. *)
Theorem passed_le_total self st :
  probe_answers (TestPlan._system self) →
  ∃ code self' st' results details total_ passed_ time_,
    TestPlan.execute self st = Ok ((code, self'), st')
    ∧ Forall2 (λ s r, result_attr s = Some r) (TestPlan._stages self') results
    ∧ last (LOG st') = Some (PlanOutro details total_ passed_ time_)
    ∧ total_ = Py.len (concat (procs <$> results))
    ∧ passed_ = Py.sum_bool (λ proc, returncode proc =? 0)
                  (concat (procs <$> results))
    ∧ 0 ≤ passed_ ≤ total_.
Proof.
  intros Hprobe. destruct (intro_Ok self Hprobe) as (n_gpus & Hintro & _).
  destruct (execute_spec self st _ Hintro)
    as (stages' & w' & results & details & time_ & Hseq & Hres & Hexec).
  cbv zeta in Hexec.
  eexists _, _, _, results, details, _, _, time_. split; [exact Hexec|].
  split; [exact Hres|]. cbn [LOG].
  split; [by rewrite !app_assoc, last_snoc|].
  split; [done|]. split; [done|]. apply sum_bool_bounds.
Qed.

(** C9: when the GPU-count query raises [ImportError] while the banner is
    built, the banner reports 0 GPUs and [execute] runs to its end, the
    banner being the first message of its log. *)
Theorem intro_without_gpu_toolkit self st :
  gpus (TestPlan._system self) = Raise ImportError →
  let banner := PlanIntro (features (TestPlan._config self))
                  (Py.len (test_files (TestPlan._config self)))
                  (Py.len (cpus (TestPlan._system self))) 0 in
  TestPlan.intro self = Ok banner
  ∧ ∃ code self' st',
      TestPlan.execute self st = Ok ((code, self'), st')
      ∧ head (LOG st') = Some banner.
Proof.
  intros Hgpus banner.
  assert (TestPlan.intro self = Ok banner) as Hintro.
  { unfold TestPlan.intro. by rewrite Hgpus. }
  split; [exact Hintro|].
  destruct (execute_spec self st _ Hintro)
    as (stages' & w' & results & details & time_ & _ & _ & Hexec).
  eexists _, _, _. split; [exact Hexec|]. done.
Qed.

End plan_claims.

Section plan_report.
Context {World : Type} {runner : StageRunner World}.
Implicit Types (st : State World) (self : TestPlan.t).

(** C6: [execute] runs the stages of the plan one after the other, and the
    failure report it writes between the rule and the summary is about the
    completions of exactly these runs: it is empty exactly when
    [total == passed]; otherwise it is the banner followed by exactly one
    entry per completion with a non-zero return code, each carrying the
    name of its originating stage, in the original stage order and, within
    a stage, the original worker order. *)
Theorem failure_report self st :
  probe_answers (TestPlan._system self) →
  ∃ code self' st' results banner report summary,
    TestPlan.execute self st = Ok ((code, self'), st')
    ∧ sequential_run (TestPlan._config self) (TestPlan._system self)
        (world st) (TestPlan._stages self) (TestPlan._stages self') (world st')
    ∧ Forall2 (λ s s', name s' = name s) (TestPlan._stages self) (TestPlan._stages self')
    ∧ Forall2 (λ s r, result_attr s = Some r) (TestPlan._stages self') results
    ∧ LOG st'
      = [banner] ++ stage_events (TestPlan._stages self) (TestPlan._stages self')
        ++ [Rule] ++ report ++ [summary]
    ∧ let all_procs := concat (procs <$> results) in
      let total_ := Py.len all_procs in
      let passed_ := Py.sum_bool (λ proc, returncode proc =? 0) all_procs in
      let tagged := tagged_procs (TestPlan._stages self) results in
      snd <$> tagged = all_procs
      ∧ (report = [] ↔ total_ = passed_)
      ∧ (total_ ≠ passed_ →
         report = FailuresBanner :: (failure_entry <$> filter failed tagged))
      ∧ omap proc_entry report = filter failed tagged
      ∧ Py.len (omap proc_entry report) = total_ - passed_.
Proof.
  intros Hprobe. destruct (intro_Ok self Hprobe) as (n_gpus & Hintro & _).
  destruct (execute_spec self st _ Hintro)
    as (stages' & w' & results & details & time_ & Hseq & Hres & Hexec).
  cbv zeta in Hexec.
  assert (Forall2 (λ s s', name s' = name s) (TestPlan._stages self) stages')
    as Hnames.
  { eapply Forall2_impl; [by eapply sequential_run_names|]. by intros ? ? [? _]. }
  assert (tagged_procs stages' results
          = tagged_procs (TestPlan._stages self) results) as Htag.
  { unfold tagged_procs. f_equal. clear -Hnames Hres.
    revert results Hres.
    induction Hnames as [|s s' ss ss' Hn _ IH]; intros results Hres.
    - by destruct results.
    - destruct results as [|r results]; [done|].
      apply Forall2_cons_1 in Hres as [_ Hres].
      simpl. by rewrite Hn, (IH _ Hres). }
  rewrite Htag in Hexec.
  assert (snd <$> tagged_procs (TestPlan._stages self) results
          = concat (procs <$> results)) as Hsnd.
  { rewrite <- Htag. by apply tagged_procs_snd. }
  clear Htag.
  set (all_procs := concat (procs <$> results)) in *.
  set (total_ := Py.len all_procs) in *.
  set (passed_ := Py.sum_bool (λ proc, returncode proc =? 0) all_procs) in *.
  set (tagged := tagged_procs (TestPlan._stages self) results) in *.
  assert (Py.len (filter failed tagged) = total_ - passed_) as Hcount.
  { unfold total_, passed_. rewrite <- Hsnd. clear.
    unfold Py.len. induction tagged as [|[n p] tagged IH]; [done|].
    rewrite filter_cons. unfold failed at 1. csimpl.
    destruct (Z.eqb_spec (returncode p) 0); case_decide; simpl in *;
      try done; lia. }
  eexists _, _, _, results, _, _, _. split; [exact Hexec|].
  cbn [LOG world TestPlan._stages].
  split; [exact Hseq|]. split; [exact Hnames|]. split; [exact Hres|].
  split; [reflexivity|].
  cbv zeta. fold all_procs total_ passed_ tagged.
  split; [exact Hsnd|].
  destruct (decide (total_ = passed_)) as [Heq|Hne].
  - assert (filter failed tagged = []) as Hnil.
    { apply length_zero_iff_nil. unfold Py.len in Hcount. lia. }
    split; [done|]. split; [done|]. split; [by rewrite Hnil|].
    rewrite Hnil in Hcount. simpl. lia.
  - split; [split; done|]. split; [done|]. csimpl.
    rewrite omap_proc_entry_failures. split; [done|exact Hcount].
Qed.

(** C7: the order of [config.features] is the order in which the stages
    are constructed (one stage per feature), the order in which they are
    run one after the other, and the order in which stages appear in the
    failure report. *)
Theorem stage_order (STAGES : StageTable) config system self st :
  TestPlan.init STAGES config system = Ok self →
  probe_answers system →
  Forall2 (λ feature stage, TestPlan.make_stage STAGES config system feature = Ok stage)
    (features config) (TestPlan._stages self)
  ∧ ∃ code self' st' results,
      TestPlan.execute self st = Ok ((code, self'), st')
      ∧ sequential_run config system
          (world st) (TestPlan._stages self) (TestPlan._stages self') (world st')
      ∧ Forall2 (λ s r, result_attr s = Some r) (TestPlan._stages self') results
      ∧ Forall2 (λ feature stage',
          ∃ stage, TestPlan.make_stage STAGES config system feature = Ok stage
                   ∧ name stage' = name stage ∧ stage_kind stage' = stage_kind stage)
          (features config) (TestPlan._stages self')
      ∧ omap stage_of_event (LOG st')
        = concat (zip_with (λ s s', [s; s'])
                    (TestPlan._stages self) (TestPlan._stages self'))
      ∧ omap proc_entry (LOG st')
        = filter failed (tagged_procs (TestPlan._stages self') results).
Proof.
  intros Hinit Hprobe. unfold TestPlan.init in Hinit.
  apply bind_Ok in Hinit as (stages & Hstages%mapM_Ok_1 & [= <-]).
  cbn [TestPlan._stages]. split; [exact Hstages|].
  set (self := {| TestPlan._config := config; TestPlan._system := system;
                  TestPlan._stages := stages |}).
  destruct (intro_Ok self Hprobe) as (n_gpus & Hintro & _).
  destruct (execute_spec self st _ Hintro)
    as (stages' & w' & results & details & time_ & Hseq & Hres & Hexec).
  cbv zeta in Hexec. cbn [TestPlan._stages TestPlan._config TestPlan._system self] in *.
  eexists _, _, _, results. split; [exact Hexec|].
  cbn [LOG world TestPlan._stages]. split; [exact Hseq|]. split; [exact Hres|].
  split; [|split].
  - apply sequential_run_names in Hseq.
    clear -Hstages Hseq. revert stages' Hseq.
    induction Hstages as [|f s fs ss Hf _ IH]; intros stages' Hseq.
    + apply Forall2_nil_inv_l in Hseq as ->. constructor.
    + apply Forall2_cons_inv_l in Hseq as (s' & ss' & [Hn Hk] & Hss & ->).
      constructor; eauto.
  - rewrite !omap_app, omap_stage_of_event_stage_events. csimpl.
    case_decide; csimpl; rewrite ?omap_stage_of_event_failures, ?app_nil_r; done.
  - rewrite !omap_app, omap_proc_entry_stage_events. csimpl.
    case_decide as Heq; csimpl; rewrite ?omap_proc_entry_failures, ?app_nil_r; [|done].
    symmetry. apply length_zero_iff_nil.
    pose proof (tagged_procs_snd _ _ Hres) as Hsnd. rewrite <- Hsnd in Heq.
    revert Heq. clear. unfold Py.len.
    generalize (tagged_procs stages' results). intros tagged.
    assert (Py.sum_bool (λ proc, returncode proc =? 0) (snd <$> tagged)
            + Z.of_nat (length (filter failed tagged))
            = Z.of_nat (length (snd <$> tagged))) as Hsum; [|lia].
    induction tagged as [|[n p] tagged IH]; [done|].
    rewrite filter_cons. unfold failed at 1. csimpl.
    destruct (Z.eqb_spec (returncode p) 0); case_decide; simpl in *;
      try done; lia.
Qed.

End plan_report.

(** ** The scenario of three stages *)

Example abc_report :
  (omap proc_entry ∘ LOG ∘ snd) <$> TestPlan.execute (runner := abc_runner) abc_plan empty_state
  = Ok [("B"%string, {| returncode := 1; elapsed := 1 |})].
Proof. vm_compute. reflexivity. Qed.

Example abc_summary :
  (last ∘ LOG ∘ snd) <$> TestPlan.execute (runner := abc_runner) abc_plan empty_state
  = Ok (Some (PlanOutro [("A"%string, 2, 2, 1); ("B"%string, 0, 1, 1); ("C"%string, 0, 0, 1)]
                3 2 3)).
Proof. vm_compute. reflexivity. Qed.

Lemma execute_exit_code_witness :
  probe_answers (TestPlan._system abc_plan)
  ∧ ∃ code self' st',
      TestPlan.execute (runner := abc_runner) abc_plan empty_state = Ok ((code, self'), st')
      ∧ (code = 0 ∨ code = 1).
Proof.
  assert (probe_answers (TestPlan._system abc_plan)) as H by reflexivity.
  split; [exact H|].
  destruct (execute_exit_code (runner := abc_runner) abc_plan empty_state H)
    as (code & self' & st' & results & details & time_ & Hexec & _ & _ & _ & _ & _ & _ & Hcode & _).
  exists code, self', st'. split; [exact Hexec|exact Hcode].
Defined.

Lemma passed_le_total_witness :
  probe_answers (TestPlan._system abc_plan)
  ∧ ∃ code self' st' details total_ passed_ time_,
      TestPlan.execute (runner := abc_runner) abc_plan empty_state = Ok ((code, self'), st')
      ∧ last (LOG st') = Some (PlanOutro details total_ passed_ time_)
      ∧ 0 ≤ passed_ ≤ total_.
Proof.
  assert (probe_answers (TestPlan._system abc_plan)) as H by reflexivity.
  split; [exact H|].
  destruct (passed_le_total (runner := abc_runner) abc_plan empty_state H)
    as (code & self' & st' & results & details & total_ & passed_ & time_
        & Hexec & _ & Hlast & _ & _ & Hle).
  exists code, self', st', details, total_, passed_, time_.
  split; [exact Hexec|]. split; [exact Hlast|exact Hle].
Defined.

Lemma intro_without_gpu_toolkit_witness :
  gpus (TestPlan._system abc_plan) = Raise ImportError
  ∧ TestPlan.intro abc_plan = Ok (PlanIntro ["A"; "B"; "C"]%string 0 8 0).
Proof.
  assert (gpus (TestPlan._system abc_plan) = Raise ImportError) as H by reflexivity.
  split; [exact H|].
  exact (proj1 (intro_without_gpu_toolkit (runner := abc_runner) abc_plan empty_state H)).
Defined.

Lemma failure_report_witness :
  probe_answers (TestPlan._system abc_plan)
  ∧ ∃ code self' st' results banner report summary,
      TestPlan.execute (runner := abc_runner) abc_plan empty_state = Ok ((code, self'), st')
      ∧ sequential_run (runner := abc_runner) (TestPlan._config abc_plan)
          (TestPlan._system abc_plan) (world empty_state)
          (TestPlan._stages abc_plan) (TestPlan._stages self') (world st')
      ∧ Forall2 (λ s r, result_attr s = Some r) (TestPlan._stages self') results
      ∧ LOG st'
        = [banner] ++ stage_events (TestPlan._stages abc_plan) (TestPlan._stages self')
          ++ [Rule] ++ report ++ [summary]
      ∧ omap proc_entry report
        = filter failed (tagged_procs (TestPlan._stages abc_plan) results).
Proof.
  assert (probe_answers (TestPlan._system abc_plan)) as H by reflexivity.
  split; [exact H|].
  destruct (failure_report (runner := abc_runner) abc_plan empty_state H)
    as (code & self' & st' & results & banner & report & summary
        & Hexec & Hseq & _ & Hres & Hlog & _ & _ & _ & Hentries & _).
  exists code, self', st', results, banner, report, summary.
  split; [exact Hexec|]. split; [exact Hseq|]. split; [exact Hres|].
  split; [exact Hlog|exact Hentries].
Defined.

Lemma stage_order_witness :
  TestPlan.init abc_table abc_config no_toolkit = Ok abc_plan
  ∧ probe_answers no_toolkit
  ∧ Forall2 (λ feature stage,
       TestPlan.make_stage abc_table abc_config no_toolkit feature = Ok stage)
      (features abc_config) (TestPlan._stages abc_plan).
Proof.
  assert (TestPlan.init abc_table abc_config no_toolkit = Ok abc_plan) as H1
    by (vm_compute; reflexivity).
  assert (probe_answers no_toolkit) as H2 by reflexivity.
  split; [exact H1|]. split; [exact H2|].
  exact (proj1 (stage_order (runner := abc_runner) abc_table abc_config no_toolkit
                  abc_plan empty_state H1 H2)).
Defined.

(** * Further properties of the code *)

(** ** [compute_spec]: errors and bounds *)

Lemma mapM_Raise {A B} (f : A → result B) (l : list A) e :
  mapM f l = Raise e → ∃ x, x ∈ l ∧ f x = Raise e.
Proof.
  induction l as [|x l IH]; simpl; [done|].
  destruct (f x) as [y|e'] eqn:Hx; simpl.
  - destruct (mapM f l) as [k|e'']; simpl; [done|].
    intros [= ->]. destruct IH as (x' & ? & ?); [done|].
    exists x'. split; [by apply elem_of_cons; right|done].
  - intros [= ->]. exists x. split; [by apply elem_of_cons; left|done].
Qed.

Lemma adjust_workers_le available requested w :
  adjust_workers available requested = Ok w → w ≤ available.
Proof.
  unfold adjust_workers. destruct (Z.eqb_spec requested 0); [intros [= <-]; lia|].
  destruct (_ && _); [done|]. intros [= <-]. lia.
Qed.

Lemma adjust_workers_Raise available requested e :
  adjust_workers available requested = Raise e
  ↔ e = ConfigurationError ∧ 0 < requested ∧ available = 0.
Proof.
  unfold adjust_workers. destruct (Z.eqb_spec requested 0) as [->|Hne].
  { split; [done|lia]. }
  destruct (Z.eqb_spec available 0) as [->|Hav].
  - destruct (Z.eqb_spec (Z.min requested 0) 0) as [Hmin|Hmin]; simpl.
    + split; [intros [= <-]; split; [done|lia]|by intros [-> _]].
    + split; [done|lia].
  - rewrite andb_false_r. split; [done|lia].
Qed.

Lemma floordiv_neg_nonpos (a b : Z) : 0 ≤ a → b < 0 → a `div` b ≤ 0.
Proof.
  intros Ha Hb. pose proof (Z.div_mod a b) as Hdm.
  pose proof (Z.mod_neg_bound a b Hb). nia.
Qed.

(** The loop of [compute_spec] stays inside the inventory for whatever
    worker count [adjust_workers] hands back. *)
Lemma shards_loop_Ok (cpus : list CPUInfo) (k w : Z) :
  k ≠ 0 → w ≤ Py.len cpus `div` k →
  mapM (OMP.shard_of cpus k) (Py.range 0 w)
  = Ok ((λ i, Py.sorted (concat (ids <$> Py.slice cpus (i * k) ((i + 1) * k))))
        <$> Py.range 0 w).
Proof.
  intros Hk Hw. destruct (Z_lt_le_dec k 0) as [Hneg|Hpos].
  - assert (w ≤ 0) as Hw0.
    { pose proof (floordiv_neg_nonpos (Py.len cpus) k). unfold Py.len in *. lia. }
    unfold Py.range. by rewrite seqZ_nil by lia.
  - apply mapM_Ok_fmap. intros i Hi%range_elem. apply shard_of_Ok; [lia..|].
    pose proof (Z.mul_div_le (Py.len cpus) k). nia.
Qed.

(** [compute_spec] in closed form, for every configuration. *)
Lemma compute_spec_closed config system :
  let k := OMP.procs config in
  OMP.compute_spec config system
  = available ← Py.floordiv (Py.len (cpus system)) k;
    w ← adjust_workers available (requested_workers config);
    Ok {| workers := w;
          shards := (λ i, Py.sorted (concat
                       (ids <$> Py.slice (cpus system) (i * k) ((i + 1) * k))))
                    <$> Py.range 0 w |}.
Proof.
  intros k. subst k. unfold OMP.compute_spec, Py.floordiv.
  destruct (Z.eqb_spec (OMP.procs config) 0) as [?|Hk]; [done|]. simpl.
  destruct (adjust_workers _ _) as [w|e] eqn:Hw; simpl; [|done].
  apply adjust_workers_le in Hw. by rewrite shards_loop_Ok.
Qed.

(** X1: [compute_spec] raises [ZeroDivisionError] exactly for the
    configurations whose per-worker requirement
    [omps * ompthreads + utility + int(cpu_pin == "strict")] is zero. *)
Theorem compute_spec_zero_division config system :
  OMP.compute_spec config system = Raise ZeroDivisionError
  ↔ OMP.procs config = 0.
Proof.
  rewrite compute_spec_closed. unfold Py.floordiv.
  destruct (Z.eqb_spec (OMP.procs config) 0) as [Hk|Hk]; simpl; [done|].
  split; [|done].
  destruct (adjust_workers _ _) as [w|e] eqn:Hw; simpl; [done|].
  apply adjust_workers_Raise in Hw as [-> _]. done.
Qed.

(** X2: [compute_spec] never indexes outside the inventory: whatever the
    configuration and the inventory, the only exceptions it can raise are
    [ZeroDivisionError] and the configuration error of [adjust_workers];
    the lookups [cpus[j]] of the shard loop never raise [IndexError]. *)
Theorem compute_spec_only_errors config system e :
  OMP.compute_spec config system = Raise e →
  e = ZeroDivisionError ∨ e = ConfigurationError.
Proof.
  rewrite compute_spec_closed. unfold Py.floordiv.
  destruct (Z.eqb_spec (OMP.procs config) 0) as [Hk|Hk]; simpl.
  { intros [= <-]. by left. }
  destruct (adjust_workers _ _) as [w|e'] eqn:Hw; simpl; [done|].
  intros [= <-]. apply adjust_workers_Raise in Hw as [-> _]. by right.
Qed.

Lemma compute_spec_only_errors_witness :
  OMP.compute_spec idle_config eight_cores = Raise ZeroDivisionError
  ∧ (ZeroDivisionError = ZeroDivisionError ∨ ZeroDivisionError = ConfigurationError).
Proof.
  assert (OMP.compute_spec idle_config eight_cores = Raise ZeroDivisionError) as H
    by (vm_compute; reflexivity).
  split; [exact H|].
  exact (compute_spec_only_errors idle_config eight_cores ZeroDivisionError H).
Defined.

(** X3: for a per-worker requirement [k >= 1], [compute_spec] raises the
    configuration error exactly when workers are requested explicitly and
    the inventory has fewer than [k] CPU groups; in every other case it
    returns a [StageSpec]. *)
Theorem compute_spec_insufficient config system :
  1 ≤ OMP.procs config →
  (OMP.compute_spec config system = Raise ConfigurationError
   ↔ 0 < requested_workers config ∧ Py.len (cpus system) < OMP.procs config)
  ∧ (¬ (0 < requested_workers config ∧ Py.len (cpus system) < OMP.procs config)
     → ∃ spec, OMP.compute_spec config system = Ok spec).
Proof.
  intros Hk. rewrite compute_spec_closed. unfold Py.floordiv.
  destruct (Z.eqb_spec (OMP.procs config) 0) as [?|_]; [lia|]. simpl.
  assert (Py.len (cpus system) `div` OMP.procs config = 0
          ↔ Py.len (cpus system) < OMP.procs config) as Hsmall.
  { unfold Py.len. rewrite Z.div_small_iff by lia. lia. }
  destruct (adjust_workers _ _) as [w|e] eqn:Hw; simpl.
  - split; [|eauto]. split; [done|]. intros [Hr Hlt%Hsmall].
    assert (adjust_workers (Py.len (cpus system) `div` OMP.procs config)
              (requested_workers config) = Raise ConfigurationError) as Hw'
      by by apply adjust_workers_Raise.
    congruence.
  - apply adjust_workers_Raise in Hw as (-> & Hr & Hav%Hsmall).
    split; [done|]. intros []. done.
Qed.

Lemma compute_spec_insufficient_witness :
  1 ≤ OMP.procs (scenario_config 1)
  ∧ (OMP.compute_spec (scenario_config 1) two_pairs = Raise ConfigurationError
     ↔ 0 < requested_workers (scenario_config 1)
       ∧ Py.len (cpus two_pairs) < OMP.procs (scenario_config 1)).
Proof.
  assert (1 ≤ OMP.procs (scenario_config 1)) as H by (vm_compute; congruence).
  split; [exact H|].
  exact (proj1 (compute_spec_insufficient (scenario_config 1) two_pairs H)).
Defined.

(** ** [compute_spec]: how the shards relate to the request and the inventory *)

Lemma take_range (n : nat) (w : Z) :
  take n (Py.range 0 w) = Py.range 0 (Z.min (Z.of_nat n) w).
Proof.
  apply list_eq. intros i. unfold Py.range.
  destruct (decide (i < n)%nat) as [Hi|Hi].
  - rewrite lookup_take_lt by done.
    destruct (decide (Z.of_nat i < w)).
    + by rewrite !lookup_seqZ_lt by lia.
    + by rewrite !lookup_seqZ_ge by lia.
  - rewrite lookup_take_ge by lia. by rewrite lookup_seqZ_ge by lia.
Qed.

(** X4: an explicit request only truncates the automatic plan.  When
    [compute_spec] returns for a request [r > 0], its worker count is the
    smaller of [r] and the automatic worker count, and its shards are the
    first [r] shards of the automatic plan: the first workers keep their
    cores whatever the request. *)
Theorem request_truncates_auto_plan config system (r : Z) spec_auto spec_r :
  0 < r →
  OMP.compute_spec (with_requested config 0) system = Ok spec_auto →
  OMP.compute_spec (with_requested config r) system = Ok spec_r →
  workers spec_r = Z.min r (workers spec_auto)
  ∧ shards spec_r = take (Z.to_nat r) (shards spec_auto).
Proof.
  intros Hr. rewrite !compute_spec_closed.
  change (OMP.procs (with_requested config 0)) with (OMP.procs config).
  change (OMP.procs (with_requested config r)) with (OMP.procs config).
  destruct (Py.floordiv _ _) as [available|]; simpl; [|done].
  unfold adjust_workers at 1. simpl. intros [= <-].
  unfold adjust_workers. destruct (Z.eqb_spec r 0); [lia|].
  destruct (_ && _); [done|]. intros [= <-]. simpl. split; [done|].
  rewrite <- fmap_take, take_range. by rewrite Z2Nat.id by lia.
Qed.

Lemma request_truncates_auto_plan_witness :
  0 < 1
  ∧ OMP.compute_spec (with_requested (scenario_config 0) 0) eight_cores
    = Ok scenario_spec
  ∧ OMP.compute_spec (with_requested (scenario_config 0) 1) eight_cores
    = Ok {| workers := 1; shards := [[0; 1; 2; 3]] |}
  ∧ shards {| workers := 1; shards := [[0; 1; 2; 3]] |}
    = take (Z.to_nat 1) (shards scenario_spec).
Proof.
  assert (0 < 1) as H1 by lia.
  assert (OMP.compute_spec (with_requested (scenario_config 0) 0) eight_cores
          = Ok scenario_spec) as H2 by (vm_compute; reflexivity).
  assert (OMP.compute_spec (with_requested (scenario_config 0) 1) eight_cores
          = Ok {| workers := 1; shards := [[0; 1; 2; 3]] |}) as H3
    by (vm_compute; reflexivity).
  split; [exact H1|]. split; [exact H2|]. split; [exact H3|].
  exact (proj2 (request_truncates_auto_plan (scenario_config 0) eight_cores 1
                  _ _ H1 H2 H3)).
Defined.

Lemma shards_concat (cpus : list CPUInfo) (k : Z) (n : nat) :
  0 ≤ k →
  concat ((λ i, Py.sorted (concat (ids <$> Py.slice cpus (i * k) ((i + 1) * k))))
          <$> Py.range 0 (Z.of_nat n))
  ≡ₚ concat (ids <$> take (Z.to_nat (Z.of_nat n * k)) cpus).
Proof.
  intros Hk. unfold Py.range. rewrite Z.sub_0_r.
  induction n as [|n IH].
  - by rewrite Z.mul_0_l.
  - rewrite seqZ_S, fmap_app, concat_app, IH. csimpl.
    rewrite app_nil_r, sorted_Permutation, <- concat_app, <- fmap_app.
    unfold Py.slice. rewrite Z.add_0_l.
    replace (Z.to_nat ((Z.of_nat n + 1) * k - Z.of_nat n * k)) with (Z.to_nat k) by lia.
    rewrite take_take_drop.
    replace (Z.to_nat (Z.of_nat n * k) + Z.to_nat k)%nat
      with (Z.to_nat (Z.of_nat (S n) * k)) by nia.
    done.
Qed.

Lemma worker_count_auto_aux config system spec :
  1 ≤ OMP.procs config → requested_workers config = 0 →
  OMP.compute_spec config system = Ok spec →
  workers spec = Py.len (cpus system) `div` OMP.procs config.
Proof.
  intros Hk Hauto. rewrite compute_spec_closed. unfold Py.floordiv.
  destruct (Z.eqb_spec (OMP.procs config) 0) as [?|_]; [lia|]. simpl.
  rewrite Hauto. unfold adjust_workers. simpl. by intros [= <-].
Qed.

Lemma compute_spec_shards_lead config system spec :
  1 ≤ OMP.procs config →
  OMP.compute_spec config system = Ok spec →
  let lead := concat (ids <$> take (Z.to_nat (workers spec * OMP.procs config))
                                   (cpus system)) in
  concat (shards spec) ≡ₚ lead
  ∧ ∃ rest, flat_ids system = lead ++ rest.
Proof.
  intros Hk. rewrite compute_spec_closed. unfold Py.floordiv.
  destruct (Z.eqb_spec (OMP.procs config) 0) as [?|_]; [lia|]. simpl.
  destruct (adjust_workers _ _) as [w|] eqn:Hw; simpl; [|done].
  intros [= <-]. simpl. split.
  - destruct (Z_lt_le_dec w 0) as [Hneg|Hpos].
    + unfold Py.range. rewrite seqZ_nil by lia.
      replace (Z.to_nat (w * OMP.procs config)) with 0%nat by nia. done.
    + rewrite <- (Z2Nat.id w) by done. apply shards_concat. lia.
  - exists (concat (ids <$> drop (Z.to_nat (w * OMP.procs config)) (cpus system))).
    unfold flat_ids. by rewrite <- concat_app, <- fmap_app, take_drop.
Qed.

(** X5: for a per-worker requirement [k >= 1], the shards of a returned
    [StageSpec] together hold exactly the ids of the first
    [worker_count * k] CPU groups of the inventory; the groups after them
    are left unused, and in automatic mode those are the
    [len(cpus) mod k] last groups. *)
Theorem shards_cover_leading_groups config system spec :
  let k := OMP.procs config in
  1 ≤ k →
  OMP.compute_spec config system = Ok spec →
  concat (shards spec)
  ≡ₚ concat (ids <$> take (Z.to_nat (workers spec * k)) (cpus system))
  ∧ (∀ x, x ∈ concat (shards spec) → x ∈ flat_ids system)
  ∧ Py.len (concat (shards spec)) ≤ total_cores system
  ∧ (requested_workers config = 0 →
     Py.len (cpus system) - workers spec * k = Py.len (cpus system) `mod` k).
Proof.
  intros k Hk Hspec. subst k.
  destruct (compute_spec_shards_lead _ _ _ Hk Hspec) as (Hperm & rest & Hrest).
  split; [exact Hperm|]. split; [|split].
  - intros x Hx. rewrite Hperm in Hx. rewrite Hrest. apply elem_of_app. by left.
  - unfold total_cores, Py.len. rewrite Hperm, Hrest, length_app. lia.
  - intros Hauto. rewrite (worker_count_auto_aux _ _ _ Hk Hauto Hspec).
    rewrite Z.mod_eq by lia. lia.
Qed.

Lemma shards_cover_leading_groups_witness :
  1 ≤ OMP.procs (scenario_config 0)
  ∧ OMP.compute_spec (scenario_config 0) eight_cores = Ok scenario_spec
  ∧ concat (shards scenario_spec)
    ≡ₚ concat (ids <$> take (Z.to_nat (workers scenario_spec
                                         * OMP.procs (scenario_config 0)))
                        (cpus eight_cores)).
Proof.
  assert (1 ≤ OMP.procs (scenario_config 0)) as H1 by (vm_compute; congruence).
  assert (OMP.compute_spec (scenario_config 0) eight_cores = Ok scenario_spec) as H2
    by (vm_compute; reflexivity).
  split; [exact H1|]. split; [exact H2|].
  exact (proj1 (shards_cover_leading_groups (scenario_config 0) eight_cores
                  scenario_spec H1 H2)).
Defined.

Lemma NoDup_concat_elem {A} (ls : list (list A)) (l : list A) :
  NoDup (concat ls) → l ∈ ls → NoDup l.
Proof.
  induction ls as [|l' ls IH]; simpl; [by intros _ ?%not_elem_of_nil|].
  intros (Hl' & _ & Hls)%NoDup_app [->|Hin]%elem_of_cons; auto.
Qed.

Lemma sorted_NoDup_strict (l : list Z) :
  Sorted Z.le l → NoDup l → StronglySorted Z.lt l.
Proof.
  intros Hs%(Sorted_StronglySorted Z.le) Hnd.
  induction Hs as [|x l Hl IH Hx]; [constructor|].
  apply NoDup_cons in Hnd as [Hnotin Hnd].
  constructor; [by apply IH|].
  rewrite Forall_forall in Hx |- *. intros y Hy.
  assert (x ≠ y) by (by intros ->). specialize (Hx y Hy). lia.
Qed.

(** X6: on an inventory in which no core id occurs twice, and for a
    per-worker requirement [k >= 1], no core id occurs twice in the
    returned shards taken together, and every shard lists its ids in
    strictly ascending order. *)
Theorem shards_strictly_ascending config system spec :
  NoDup (flat_ids system) →
  1 ≤ OMP.procs config →
  OMP.compute_spec config system = Ok spec →
  NoDup (concat (shards spec))
  ∧ ∀ shard, shard ∈ shards spec → StronglySorted Z.lt shard.
Proof.
  intros Hnd Hk Hspec.
  destruct (compute_spec_shards_lead _ _ _ Hk Hspec) as (Hperm & rest & Hrest).
  assert (NoDup (concat (shards spec))) as Hall.
  { rewrite Hperm. rewrite Hrest in Hnd. by apply NoDup_app in Hnd as (? & _ & _). }
  split; [exact Hall|]. intros shard Hin.
  apply sorted_NoDup_strict; [|by eapply NoDup_concat_elem].
  destruct (compute_spec_shard_sorted _ _ _ _ Hspec Hin) as [groups ->].
  apply sorted_Sorted.
Qed.

Lemma shards_strictly_ascending_witness :
  NoDup (flat_ids eight_cores)
  ∧ 1 ≤ OMP.procs (scenario_config 0)
  ∧ OMP.compute_spec (scenario_config 0) eight_cores = Ok scenario_spec
  ∧ NoDup (concat (shards scenario_spec)).
Proof.
  assert (NoDup (flat_ids eight_cores)) as H0.
  { apply NoDup_ListNoDup. vm_compute. repeat (constructor; [simpl; lia|]).
    constructor. }
  assert (1 ≤ OMP.procs (scenario_config 0)) as H1 by (vm_compute; congruence).
  assert (OMP.compute_spec (scenario_config 0) eight_cores = Ok scenario_spec) as H2
    by (vm_compute; reflexivity).
  split; [exact H0|]. split; [exact H1|]. split; [exact H2|].
  exact (proj1 (shards_strictly_ascending (scenario_config 0) eight_cores
                  scenario_spec H0 H1 H2)).
Defined.

(** ** [shard_args]: the binding can be read back *)

Lemma pretty_N_go_comma_free (x : N) (s : string) :
  comma_free s → comma_free (pretty_N_go x s).
Proof.
  revert s. induction (N.lt_wf_0 x) as [x _ IH]; intros s Hs.
  destruct (decide (x = 0)%N) as [->|Hx]; [by rewrite pretty_N_go_0|].
  rewrite pretty_N_go_step by lia. apply IH.
  - apply N.div_lt; lia.
  - split; [|done]. unfold pretty_N_char. by repeat case_match.
Qed.

Lemma pretty_N_go_nonempty (x : N) (s : string) :
  s ≠ EmptyString → pretty_N_go x s ≠ EmptyString.
Proof.
  revert s. induction (N.lt_wf_0 x) as [x _ IH]; intros s Hs.
  destruct (decide (x = 0)%N) as [->|Hx]; [by rewrite pretty_N_go_0|].
  rewrite pretty_N_go_step by lia. apply IH; [apply N.div_lt; lia|done].
Qed.

Lemma pretty_N_token (x : N) :
  comma_free (pretty x) ∧ pretty x ≠ EmptyString.
Proof.
  unfold pretty, pretty_N. case_decide; [by repeat split|].
  split; [by apply pretty_N_go_comma_free|].
  rewrite pretty_N_go_step by lia. by apply pretty_N_go_nonempty.
Qed.

Lemma str_token (n : Z) :
  comma_free (Py.str n) ∧ Py.str n ≠ EmptyString.
Proof.
  unfold Py.str, pretty, pretty_Z. destruct n as [|p|p].
  - by repeat split.
  - apply pretty_N_token.
  - destruct (pretty_N_token (N.pos p)) as [Hc _].
    split; [|done]. split; [done|exact Hc].
Qed.

Lemma append_nil_l (s : string) : (EmptyString +:+ s)%string = s.
Proof. reflexivity. Qed.

Lemma append_cons (c : ascii) (x s : string) :
  (String c x +:+ s)%string = String c (x +:+ s)%string.
Proof. reflexivity. Qed.

Lemma comma_free_no_separator (x y t : string) :
  comma_free x → x ≠ (y +:+ "," +:+ t)%string.
Proof.
  revert x. induction y as [|c y IH]; intros [|c' x];
    repeat (rewrite append_nil_l || rewrite append_cons); simpl; try done.
  - intros [Hc _] [= -> _]. done.
  - intros [_ Hx] [= _ Heq]. by eapply IH.
Qed.

Lemma split_at_separator (x y s t : string) :
  comma_free x → comma_free y →
  (x +:+ "," +:+ s = y +:+ "," +:+ t)%string → x = y ∧ s = t.
Proof.
  revert y. induction x as [|c x IH]; intros [|c' y];
    repeat (rewrite append_nil_l || rewrite append_cons); simpl.
  - intros _ _ [= ->]. done.
  - intros _ [Hc _] [= <- _]. done.
  - intros [Hc _] _ [= -> _]. done.
  - intros [_ Hx] [_ Hy] [= -> Heq].
    destruct (IH y Hx Hy Heq) as [-> ->]. done.
Qed.

Lemma append_nonempty (x s : string) : x ≠ EmptyString → (x +:+ s)%string ≠ EmptyString.
Proof. destruct x; [done|]. by rewrite append_cons. Qed.

(** [",".join] is injective on lists of non-empty comma-free strings. *)
Lemma join_inj (xs ys : list string) :
  Forall (λ s, comma_free s ∧ s ≠ EmptyString) xs →
  Forall (λ s, comma_free s ∧ s ≠ EmptyString) ys →
  Py.join "," xs = Py.join "," ys → xs = ys.
Proof.
  unfold Py.join. intros Hxs. revert ys.
  induction Hxs as [|x xs [Hx Hx0] Hxs IH]; intros ys Hys Heq.
  - destruct Hys as [|y ys [Hy Hy0] Hys]; [done|]. exfalso.
    destruct ys; simpl in Heq; [done|].
    by eapply append_nonempty.
  - destruct Hys as [|y ys [Hy Hy0] Hys].
    { exfalso. destruct xs; simpl in Heq; [done|].
      symmetry in Heq. by eapply append_nonempty. }
    destruct xs as [|x2 xs], ys as [|y2 ys]; simpl in Heq.
    + by subst.
    + exfalso. by eapply (comma_free_no_separator x y).
    + exfalso. symmetry in Heq. by eapply (comma_free_no_separator y x).
    + apply split_at_separator in Heq as [-> Heq]; [|done..].
      f_equal. by apply IH.
Qed.

(** X7: under a pinning mode other than ["none"], the arguments that
    [shard_args] builds determine the shard: two shards with the same
    argument list are the same shard.  Under ["none"] the arguments do not
    depend on the shard at all. *)
Theorem shard_args_determine_shard (shard1 shard2 : Shard) config :
  (cpu_pin config ≠ pin_none →
   OMP.shard_args shard1 config = OMP.shard_args shard2 config → shard1 = shard2)
  ∧ (cpu_pin config = pin_none →
     OMP.shard_args shard1 config = OMP.shard_args shard2 config).
Proof.
  unfold OMP.shard_args. split; intros Hpin.
  - rewrite !decide_True by done. intros [= Heq].
    apply join_inj in Heq.
    + by apply (inj (fmap Py.str)) in Heq.
    + apply Forall_fmap, Forall_forall. intros n _. apply str_token.
    + apply Forall_fmap, Forall_forall. intros n _. apply str_token.
  - rewrite !decide_False; [done|..]; by intros [].
Qed.

Lemma shard_args_determine_shard_witness :
  cpu_pin (scenario_config 0) ≠ pin_none
  ∧ OMP.shard_args [0; 1; 2; 3] (scenario_config 0)
    = OMP.shard_args [0; 1; 2; 3] (scenario_config 0)
  ∧ [0; 1; 2; 3] = [0; 1; 2; 3].
Proof.
  assert (cpu_pin (scenario_config 0) ≠ pin_none) as H1 by (simpl; congruence).
  assert (OMP.shard_args [0; 1; 2; 3] (scenario_config 0)
          = OMP.shard_args [0; 1; 2; 3] (scenario_config 0)) as H2 by reflexivity.
  split; [exact H1|]. split; [exact H2|].
  exact (proj1 (shard_args_determine_shard [0; 1; 2; 3] [0; 1; 2; 3]
                  (scenario_config 0)) H1 H2).
Defined.

(** ** [TestPlan.__init__]: failing fast *)

Lemma mapM_app_Raise {A B} (f : A → result B) (pre : list A) x post ys e :
  mapM f pre = Ok ys → f x = Raise e → mapM f (pre ++ x :: post) = Raise e.
Proof.
  revert ys. induction pre as [|a pre IH]; intros ys; simpl.
  - intros _ ->. done.
  - destruct (f a) as [b|] eqn:Ha; simpl; [|done].
    destruct (mapM f pre) as [k|] eqn:Hpre; simpl; [|done].
    intros _ Hx. by rewrite (IH k).
Qed.

Lemma mapM_Raise_first {A B} (f : A → result B) (l : list A) e :
  mapM f l = Raise e →
  ∃ pre x post ys, l = pre ++ x :: post ∧ mapM f pre = Ok ys ∧ f x = Raise e.
Proof.
  induction l as [|a l IH]; simpl; [done|].
  destruct (f a) as [b|e'] eqn:Ha; simpl.
  - destruct (mapM f l) as [k|e''] eqn:Hl; simpl; [done|].
    intros [= ->]. destruct IH as (pre & x & post & ys & -> & Hpre & Hx); [done|].
    exists (a :: pre), x, post, (b :: ys). split; [done|]. split; [|done].
    simpl. by rewrite Ha, Hpre.
  - intros [= ->]. by exists [], a, l, [].
Qed.

Lemma mapM_elem_Raise {A B} (f : A → result B) (l : list A) x e :
  x ∈ l → f x = Raise e → raises (mapM f l).
Proof.
  intros Hin Hx. destruct (mapM f l) as [k|e'] eqn:Hl; [|by eexists].
  apply mapM_Ok_1 in Hl. apply list_elem_of_lookup in Hin as [i Hi].
  destruct (Forall2_lookup_l _ _ _ _ _ Hl Hi) as (y & _ & Hy). congruence.
Qed.

(** X8: [TestPlan.__init__] fails fast.  It raises [e] exactly when the
    constructors of a leading run of [config.features] succeed and
    [STAGES[feature](config, system)] raises [e] for the next feature; a
    feature that is no key of [STAGES] raises [KeyError] there, so a plan
    with an unknown feature is never built. *)
Theorem init_fails_on_first_bad_feature (STAGES : StageTable) config system :
  (∀ e, TestPlan.init STAGES config system = Raise e
        ↔ ∃ pre feature post stages,
            features config = pre ++ feature :: post
            ∧ mapM (TestPlan.make_stage STAGES config system) pre = Ok stages
            ∧ TestPlan.make_stage STAGES config system feature = Raise e)
  ∧ (∀ feature, STAGES feature = None →
       TestPlan.make_stage STAGES config system feature = Raise KeyError)
  ∧ (∀ feature, feature ∈ features config → STAGES feature = None →
       raises (TestPlan.init STAGES config system)).
Proof.
  assert (∀ feature, STAGES feature = None →
            TestPlan.make_stage STAGES config system feature = Raise KeyError) as Hkey.
  { intros feature Hnone. unfold TestPlan.make_stage. by rewrite Hnone. }
  split; [|split; [exact Hkey|]].
  - intros e. unfold TestPlan.init. split.
    + destruct (mapM _ (features config)) as [stages|e'] eqn:Hm; simpl; [done|].
      intros [= ->]. by apply mapM_Raise_first.
    + intros (pre & feature & post & stages & -> & Hpre & Hf).
      by rewrite (mapM_app_Raise _ _ _ _ _ _ Hpre Hf).
  - intros feature Hin Hnone. unfold TestPlan.init.
    destruct (mapM_elem_Raise _ _ _ _ Hin (Hkey _ Hnone)) as [e ->]. by exists e.
Qed.

(** ** [TestPlan.execute], [intro], [outro], [_log_failures] *)

Section plan_extras.
Context {World : Type} {runner : StageRunner World}.
Implicit Types (st : State World) (self : TestPlan.t).

Lemma intro_Raise self e :
  TestPlan.intro self = Raise e
  ↔ gpus (TestPlan._system self) = Raise e ∧ e ≠ ImportError.
Proof.
  unfold TestPlan.intro. destruct (gpus (TestPlan._system self)) as [gs|e'].
  - split; [done|by intros [? _]].
  - destruct e'; simpl; split; try done;
      try (by intros [= <-]); try (by intros [[= <-] ?]).
Qed.

Lemma execute_intro_Raise self st e :
  TestPlan.intro self = Raise e → TestPlan.execute self st = Raise e.
Proof.
  intros Hintro. unfold TestPlan.execute.
  rewrite M_bind_unfold. unfold log_clear at 1.
  rewrite M_bind_unfold. unfold lift at 1. by rewrite Hintro.
Qed.

(** X9: the only way [intro], and with it [execute], can raise is the GPU
    probe: each raises [e] exactly when [system.gpus] raises [e] and [e] is
    not [ImportError]. *)
Theorem execute_raises_only_for_probe self st e :
  (TestPlan.intro self = Raise e
   ↔ gpus (TestPlan._system self) = Raise e ∧ e ≠ ImportError)
  ∧ (TestPlan.execute self st = Raise e
     ↔ gpus (TestPlan._system self) = Raise e ∧ e ≠ ImportError).
Proof.
  split; [apply intro_Raise|]. rewrite <- intro_Raise. split.
  - destruct (TestPlan.intro self) as [banner|e'] eqn:Hintro.
    + destruct (execute_spec self st _ Hintro)
        as (? & ? & ? & ? & ? & _ & _ & Hexec).
      cbv zeta in Hexec. rewrite Hexec. done.
    + rewrite (execute_intro_Raise self st e' Hintro). by intros [= ->].
  - apply execute_intro_Raise.
Qed.

(** X10: [execute] starts by clearing the log: nothing that was logged
    before the call is left in the log it produces, and the outcome does
    not depend on it. *)
Theorem execute_discards_previous_log self (log1 log2 : list Msg) (w : World) :
  TestPlan.execute self {| LOG := log1; world := w |}
  = TestPlan.execute self {| LOG := log2; world := w |}.
Proof.
  unfold TestPlan.execute. rewrite !(M_bind_unfold log_clear). reflexivity.
Qed.

(** X11: a plan without stages runs nothing: [execute] returns 0, leaves
    the outside world as it was, hands the plan back unchanged and logs
    exactly the banner, the rule and a summary of 0 passed out of 0. *)
Theorem execute_without_stages self st :
  TestPlan._stages self = [] →
  probe_answers (TestPlan._system self) →
  ∃ banner,
    TestPlan.intro self = Ok banner
    ∧ TestPlan.execute self st
      = Ok ((0, self), {| LOG := [banner; Rule; PlanOutro [] 0 0 0];
                          world := world st |}).
Proof.
  intros Hnil Hprobe. destruct (intro_Ok self Hprobe) as (n_gpus & Hintro & _).
  eexists. split; [exact Hintro|].
  destruct self as [config system stages]. simpl in Hnil. subst stages.
  unfold TestPlan.execute.
  rewrite M_bind_unfold. unfold log_clear at 1.
  rewrite M_bind_unfold. unfold lift at 1. rewrite Hintro.
  reflexivity.
Qed.

(** X12: [_log_failures] trusts the counts it is given.  With
    [total == passed] it logs nothing, whatever the stages hold; with
    [total != passed] it logs the FAILURES banner even when no process of
    any stage has a non-zero return code, and then nothing else. *)
Theorem log_failures_trusts_counts self (total_ passed_ : Z) st :
  (total_ = passed_ → TestPlan._log_failures self total_ passed_ st = Ok ((), st))
  ∧ (total_ ≠ passed_ →
     Forall (λ s, ∃ r, result_attr s = Some r
                       ∧ Forall (λ proc, returncode proc = 0) (procs r))
       (TestPlan._stages self) →
     TestPlan._log_failures self total_ passed_ st
     = Ok ((), {| LOG := LOG st ++ [FailuresBanner]; world := world st |})).
Proof.
  split.
  - intros Heq. unfold TestPlan._log_failures. rewrite decide_True by done.
    done.
  - intros Hne Hall.
    assert (∃ results,
      Forall2 (λ s r, result_attr s = Some r) (TestPlan._stages self) results
      ∧ filter failed (tagged_procs (TestPlan._stages self) results) = [])
      as (results & Hres & Hnone).
    { induction Hall as [|s ss (r & Hr & Hok) _ (results & Hres & Hnone)].
      - by exists [].
      - exists (r :: results). split; [by constructor|].
        rewrite tagged_procs_cons, filter_app, Hnone, app_nil_r.
        clear -Hok. induction Hok as [|p ps Hp _ IH]; [done|]. csimpl.
        rewrite filter_cons, IH. unfold failed. simpl.
        by rewrite decide_False by (by intros ?). }
    rewrite (log_failures_spec self results total_ passed_ st Hres).
    by rewrite decide_False, Hnone by done.
Qed.

End plan_extras.

Section plan_invariants.
Context {World : Type} {runner : StageRunner World}.
Implicit Types (st : State World) (self : TestPlan.t).

Lemma foldl_add_foldr (zs : list Z) (acc : Z) :
  foldl Z.add acc zs = acc + foldr Z.add 0 zs.
Proof.
  revert acc. induction zs as [|z zs IH]; intros acc; simpl; [lia|].
  rewrite IH. lia.
Qed.

Lemma mapM_time_results (stages : list Stage) (results : list StageResult) :
  Forall2 (λ s r, result_attr s = Some r) stages results →
  mapM (λ s, time <$> get_result s) stages = Ok (time <$> results).
Proof.
  induction 1 as [|s r ss rs Hs _ IH]; [done|].
  assert (get_result s = Ok r) as Hget by (unfold get_result; by rewrite Hs).
  cbn [mapM]. rewrite Hget. simpl. by rewrite IH.
Qed.

(** X13: once every stage holds a result, [outro(total, passed)] does not
    raise; its summary has one detail line per stage, in stage order and
    under the stage's name, its time is the sum of the stage times, and
    the counts it shows are the arguments it was given. *)
Theorem outro_lines self (results : list StageResult) (total_ passed_ : Z) :
  Forall2 (λ s r, result_attr s = Some r) (TestPlan._stages self) results →
  ∃ details,
    TestPlan.outro self total_ passed_
    = Ok (PlanOutro details total_ passed_ (foldr Z.add 0 (time <$> results)))
    ∧ (λ line, line.1.1.1) <$> details = name <$> TestPlan._stages self
    ∧ (λ line, line.2) <$> details = time <$> results.
Proof.
  destruct self as [config system stages]. cbn [TestPlan._stages].
  intros Hres. unfold TestPlan.outro. cbn [TestPlan._stages].
  rewrite (mapM_get_result (λ s r, (name s, passed r, total r, time r)) _ _ Hres).
  simpl. rewrite (mapM_time_results _ _ Hres). simpl.
  eexists. split; [by rewrite foldl_add_foldr|].
  induction Hres as [|s r ss rs _ _ [IH1 IH2]]; [done|].
  csimpl. by rewrite IH1, IH2.
Qed.

(** X14: [execute] returns the plan it was called on with the same
    configuration and system and the same stages, by name and kind and in
    the same order, each of them now holding a result: a failing stage
    does not keep the later stages from running. *)
Theorem execute_keeps_plan self st code self' st' :
  TestPlan.execute self st = Ok ((code, self'), st') →
  TestPlan._config self' = TestPlan._config self
  ∧ TestPlan._system self' = TestPlan._system self
  ∧ Forall2 (λ s s', name s' = name s ∧ stage_kind s' = stage_kind s
                      ∧ is_Some (result_attr s'))
      (TestPlan._stages self) (TestPlan._stages self').
Proof.
  intros Hexec.
  destruct (TestPlan.intro self) as [banner|e] eqn:Hintro;
    [|by rewrite (execute_intro_Raise self st e Hintro) in Hexec].
  destruct (execute_spec self st _ Hintro)
    as (stages' & w' & results & details & time_ & Hseq & Hres & Hexec').
  cbv zeta in Hexec'. rewrite Hexec' in Hexec. injection Hexec as _ <- _.
  simpl. split; [done|]. split; [done|].
  clear -Hseq. induction Hseq; constructor; [|done].
  repeat split. by eexists.
Qed.

End plan_invariants.

Lemma execute_without_stages_witness :
  TestPlan._stages empty_plan = []
  ∧ probe_answers (TestPlan._system empty_plan)
  ∧ ∃ banner,
      TestPlan.intro empty_plan = Ok banner
      ∧ TestPlan.execute (runner := abc_runner) empty_plan empty_state
        = Ok ((0, empty_plan), {| LOG := [banner; Rule; PlanOutro [] 0 0 0];
                                  world := world empty_state |}).
Proof.
  assert (TestPlan._stages empty_plan = []) as H1 by reflexivity.
  assert (probe_answers (TestPlan._system empty_plan)) as H2 by reflexivity.
  split; [exact H1|]. split; [exact H2|].
  exact (execute_without_stages (runner := abc_runner) empty_plan empty_state H1 H2).
Defined.

Lemma init_fails_on_first_bad_feature_witness :
  "D"%string ∈ features unknown_feature_config
  ∧ abc_table "D"%string = None
  ∧ raises (TestPlan.init abc_table unknown_feature_config no_toolkit).
Proof.
  assert ("D"%string ∈ features unknown_feature_config) as H1 by (right; left).
  assert (abc_table "D"%string = None) as H2 by reflexivity.
  split; [exact H1|]. split; [exact H2|].
  exact (proj2 (proj2 (init_fails_on_first_bad_feature abc_table
                         unknown_feature_config no_toolkit)) "D"%string H1 H2).
Defined.

Example unknown_feature_KeyError :
  TestPlan.init abc_table unknown_feature_config no_toolkit = Raise KeyError.
Proof. vm_compute. reflexivity. Qed.

Lemma log_failures_trusts_counts_witness :
  3 = 3
  ∧ TestPlan._log_failures abc_plan 3 3 empty_state = Ok ((), empty_state).
Proof.
  assert (3 = 3) as H1 by reflexivity.
  split; [exact H1|].
  exact (proj1 (log_failures_trusts_counts abc_plan 3 3 empty_state) H1).
Defined.

Lemma outro_lines_witness :
  Forall2 (λ s r, result_attr s = Some r) (TestPlan._stages abc_done_plan) abc_results
  ∧ ∃ details,
      TestPlan.outro abc_done_plan 3 2
      = Ok (PlanOutro details 3 2 (foldr Z.add 0 (time <$> abc_results)))
      ∧ (λ line, line.1.1.1) <$> details = name <$> TestPlan._stages abc_done_plan
      ∧ (λ line, line.2) <$> details = time <$> abc_results.
Proof.
  assert (Forall2 (λ s r, result_attr s = Some r)
            (TestPlan._stages abc_done_plan) abc_results) as H1
    by (repeat constructor).
  split; [exact H1|].
  exact (outro_lines abc_done_plan abc_results 3 2 H1).
Defined.

Example abc_outro :
  TestPlan.outro abc_done_plan 3 2
  = Ok (PlanOutro [("A"%string, 2, 2, 5); ("B"%string, 0, 1, 7); ("C"%string, 0, 0, 0)]
          3 2 12).
Proof. vm_compute. reflexivity. Qed.

Lemma execute_keeps_plan_witness :
  ∃ code self' st',
    TestPlan.execute (runner := abc_runner) abc_plan empty_state = Ok ((code, self'), st')
    ∧ TestPlan._config self' = TestPlan._config abc_plan.
Proof.
  destruct (TestPlan.execute (runner := abc_runner) abc_plan empty_state)
    as [[[code self'] st']|e] eqn:Hexec; [|vm_compute in Hexec; discriminate].
  exists code, self', st'. split; [reflexivity|].
  exact (proj1 (execute_keeps_plan (runner := abc_runner) abc_plan empty_state
                  code self' st' Hexec)).
Defined.
